(** * Prayah bookstore: checkout, stock and notification consistency

    A shallow embedding of the storefront and admin handlers of the
    bookstore application ([app.py], [app_enhanced.py],
    [admin/routes.py], [models/database.py]) together with the
    properties its specification states about them.

    Conventions.
    - The SQLite file is a record of tables.  [books] and
      [notifications] are finite maps from the [INTEGER PRIMARY KEY] to
      the row; [orders] and [order_items] are lists in insertion order.
    - A handler is a function from the request data, the database and
      the session to a response, the database after the request and the
      session after the request.  An exception that escapes a view is
      the response [unhandled e]; writes that were not committed are
      dropped with the connection, so the database is returned as it
      was.
    - The session cart is a Python [dict] from the form's [book_id]
      (a string) to an [int]; it is an association list in insertion
      order, since iteration order decides which line fails first and
      in which order prices are summed. *)

From Stdlib Require Import ZArith List String Ascii Bool Lia.
From Stdlib Require Import Floats Uint63.
From stdpp Require Import base option list gmap strings fin_maps.
Import ListNotations.

Local Open Scope Z_scope.
#[local] Set Warnings "-inexact-float".

(** ** What the handlers take from Python and SQLite

    Prices are [REAL] columns and Python [float]s.  The handlers only
    add them, multiply them by an [int] and compare them with zero; no
    algebraic law of these operations is used anywhere below, so every
    statement holds for IEEE doubles with their roundings.  [float()],
    [int()] and SQLite's comparison of the integer key with a text
    parameter are library code and are taken as given. *)

Class Host := {
  real : Type;
  (** the [int] 0 that [total] starts from *)
  rzero : real;
  (** [a + b] *)
  radd : real -> real -> real;
  (** [price * quantity], a float times an int *)
  rmul_int : real -> Z -> real;
  (** [x < 0] *)
  rlt0 : real -> bool;
  (** NaN, which SQLite stores as NULL *)
  risnan : real -> bool;
  (** [float(s)]; [None] is [ValueError] *)
  py_float : string -> option real;
  (** [int(s)]; [None] is [ValueError] *)
  py_int : string -> option Z;
  (** the row id that [WHERE id = ?] selects when the parameter is the
      text [s]: the column's numeric affinity is applied to the text *)
  sql_rowid : string -> option Z
}.

(** ** Python strings and dictionaries *)

Definition is_space (c : ascii) : bool :=
  let n := nat_of_ascii c in
  ((9 <=? n)%nat && (n <=? 13)%nat) || ((28 <=? n)%nat && (n <=? 32)%nat).

Fixpoint lstrip (s : string) : string :=
  match s with
  | String c rest => if is_space c then lstrip rest else s
  | EmptyString => EmptyString
  end.

Fixpoint rstrip (s : string) : string :=
  match s with
  | EmptyString => EmptyString
  | String c rest =>
      match rstrip rest with
      | EmptyString => if is_space c then EmptyString else String c EmptyString
      | kept => String c kept
      end
  end.

(** [s.strip()] on the ASCII white space *)
Definition py_strip (s : string) : string := rstrip (lstrip s).

Definition lower_char (c : ascii) : ascii :=
  let n := nat_of_ascii c in
  if ((65 <=? n)%nat && (n <=? 90)%nat)%bool then ascii_of_nat (n + 32) else c.

Definition upper_char (c : ascii) : ascii :=
  let n := nat_of_ascii c in
  if ((97 <=? n)%nat && (n <=? 122)%nat)%bool then ascii_of_nat (n - 32) else c.

Fixpoint py_lower (s : string) : string :=
  match s with
  | EmptyString => EmptyString
  | String c rest => String (lower_char c) (py_lower rest)
  end.

Definition string_in (s : string) (l : list string) : bool :=
  existsb (String.eqb s) l.

(** A [dict] with string keys, in insertion order. *)
Definition dict (V : Type) : Type := list (string * V).

Fixpoint dict_get {V} (k : string) (d : dict V) : option V :=
  match d with
  | [] => None
  | (k', v) :: rest => if String.eqb k k' then Some v else dict_get k rest
  end.

(** [d[k] = v]: an existing key keeps its place, a new one goes last *)
Fixpoint dict_set {V} (k : string) (v : V) (d : dict V) : dict V :=
  match d with
  | [] => [(k, v)]
  | (k', v') :: rest =>
      if String.eqb k k' then (k', v) :: rest else (k', v') :: dict_set k v rest
  end.

(** [del d[k]] for a key that is present *)
Fixpoint dict_del {V} (k : string) (d : dict V) : dict V :=
  match d with
  | [] => []
  | (k', v') :: rest =>
      if String.eqb k k' then rest else (k', v') :: dict_del k rest
  end.

Definition dict_has {V} (k : string) (d : dict V) : bool :=
  match dict_get k d with Some _ => true | None => false end.

(** ** Order identifiers: [str(uuid.uuid4())[:8].upper()] *)

Definition hex_alphabet : list ascii := list_ascii_of_string "0123456789abcdef".

Definition hex_char (d : Z) : ascii := nth (Z.to_nat d) hex_alphabet "0"%char.

(** ['%0<width>x' % n], most significant digit first *)
Fixpoint hex_digits (width : nat) (n : Z) : list ascii :=
  match width with
  | O => []
  | S w => hex_digits w (n / 16) ++ [hex_char (n mod 16)]
  end.

(** [uuid.UUID(bytes=os.urandom(16), version=4).int]: the sixteen random
    bytes as a big-endian integer with the variant and version bits
    set. *)
Definition uuid4 (random_bytes : Z) : Z :=
  let i0 := random_bytes mod 2 ^ 128 in
  let i1 := Z.land i0 (Z.lnot (Z.shiftl 0xc000 48)) in
  let i2 := Z.lor i1 (Z.shiftl 0x8000 48) in
  let i3 := Z.land i2 (Z.lnot (Z.shiftl 0xf000 64)) in
  Z.lor i3 (Z.shiftl 4 76).

(** [str(u)]: the 32 hex digits in groups of 8-4-4-4-12 *)
Definition uuid_str (u : Z) : list ascii :=
  let h := hex_digits 32 u in
  let dash := ["-"%char] in
  take 8 h ++ dash ++ take 4 (drop 8 h) ++ dash ++ take 4 (drop 12 h)
    ++ dash ++ take 4 (drop 16 h) ++ dash ++ drop 20 h.

Definition new_order_id (random_bytes : Z) : string :=
  string_of_list_ascii (map upper_char (take 8 (uuid_str (uuid4 random_bytes)))).

Arguments new_order_id : simpl never.
Arguments uuid4 : simpl never.

(** The characters an order identifier is written with. *)
Definition order_id_alphabet : list ascii := list_ascii_of_string "0123456789ABCDEF".

(** The identifier that encodes the 32-bit number [k]. *)
Definition order_id_of_prefix (k : Z) : string :=
  string_of_list_ascii (map upper_char (hex_digits 8 k)).

(** ** Exceptions, flashes and responses *)

Inductive py_exception :=
| TypeError        (* 'NoneType' object is not subscriptable *)
| RuntimeError     (* dictionary changed size during iteration *)
| IntegrityError   (* UNIQUE or NOT NULL constraint failed *)
| ValueError.      (* float() or int() on text that does not parse *)

Inductive http_method := GET | POST.

(** The texts handed to [flash], by their template. *)
Inductive flash :=
| flash_cart_empty
| flash_added_to_cart
| flash_item_removed
| flash_cart_updated
| flash_quantity_adjusted (title : string)
| flash_out_of_stock (title : string)
| flash_insufficient_stock (title : string) (available : Z)
| flash_insufficient_stock_for (title : string)
| flash_order_placed (order_id : string)
| flash_invalid_price
| flash_price_negative
| flash_price_not_number
| flash_stock_negative
| flash_stock_not_integer
| flash_threshold_negative
| flash_threshold_not_integer
| flash_book_added (title : string)
| flash_book_added_plain
| flash_book_updated (title : string)
| flash_book_not_found.

(** ** [models/database.py]: rows, tables and statements *)

Module Database.
Section WithHost.
Context {host : Host}.

Record book := {
  book_title : string;
  book_author : string;
  book_description : string;
  book_price : real;
  book_stock : Z;
  book_genre : string;
  book_image_filename : option string;
  book_stock_threshold : Z
}.

Record order := {
  order_order_id : string;
  order_customer_name : string;
  order_customer_email : string;
  order_customer_phone : string;
  order_shipping_address : string;
  order_total_amount : real;
  order_status : string;
  order_payment_method : string
}.

(** [book_id] is the parameter as the handler binds it: the cart key. *)
Record order_item := {
  item_order_id : string;
  item_book_id : string;
  item_quantity : Z;
  item_price : real
}.

Inductive message :=
| msg_new_order (order_id customer_name : string) (total : real)
| msg_book_added (title author : string)
| msg_low_stock (title : string) (remaining : Z).

Record notification := {
  notif_type : string;
  notif_title : string;
  notif_message : message;
  notif_is_read : bool
}.

Record database := {
  books : gmap Z book;
  books_seq : Z;
  orders : list order;
  order_items : list order_item;
  notifications : gmap Z notification;
  notifications_seq : Z
}.

Definition with_books (bs : gmap Z book) (seq : Z) (db : database) : database :=
  {| books := bs; books_seq := seq; orders := orders db;
     order_items := order_items db; notifications := notifications db;
     notifications_seq := notifications_seq db |}.

(** [SELECT * FROM books WHERE id = ?] with [fetchone()] *)
Definition fetch_book (db : database) (book_id : string) : option book :=
  sql_rowid book_id ≫= (λ i, books db !! i).

Definition set_stock (n : Z) (b : book) : book :=
  {| book_title := book_title b; book_author := book_author b;
     book_description := book_description b; book_price := book_price b;
     book_stock := n; book_genre := book_genre b;
     book_image_filename := book_image_filename b;
     book_stock_threshold := book_stock_threshold b |}.

(** [UPDATE books SET stock = stock - ? WHERE id = ?] *)
Definition update_stock (quantity : Z) (book_id : string) (db : database) : database :=
  match sql_rowid book_id with
  | Some i =>
      with_books (alter (λ b, set_stock (book_stock b - quantity) b) i (books db))
                 (books_seq db) db
  | None => db
  end.

(** The key an [AUTOINCREMENT] column gives the next row: one more than
    the largest key in the table and the largest key ever given. *)
Definition next_rowid {A} (seq : Z) (rows : gmap Z A) : Z :=
  1 + map_fold (λ i _ m, Z.max i m) seq rows.

(** [INSERT INTO books ...]; [price REAL NOT NULL] refuses NaN, which
    SQLite binds as NULL. *)
Definition insert_book (b : book) (db : database) : option database :=
  if risnan (book_price b) then None
  else
    let i := next_rowid (books_seq db) (books db) in
    Some (with_books (<[i := b]> (books db)) i db).

Definition order_id_taken (oid : string) (db : database) : bool :=
  existsb (λ o, String.eqb oid (order_order_id o)) (orders db).

(** [INSERT INTO orders ...]; [order_id TEXT UNIQUE NOT NULL] *)
Definition insert_order (o : order) (db : database) : option database :=
  if order_id_taken (order_order_id o) db then None
  else
    Some {| books := books db; books_seq := books_seq db;
            orders := orders db ++ [o];
            order_items := order_items db;
            notifications := notifications db;
            notifications_seq := notifications_seq db |}.

(** [INSERT INTO order_items ...] *)
Definition insert_order_item (it : order_item) (db : database) : database :=
  {| books := books db; books_seq := books_seq db; orders := orders db;
     order_items := order_items db ++ [it];
     notifications := notifications db;
     notifications_seq := notifications_seq db |}.

Definition with_notifications (ns : gmap Z notification) (seq : Z)
    (db : database) : database :=
  {| books := books db; books_seq := books_seq db; orders := orders db;
     order_items := order_items db; notifications := ns;
     notifications_seq := seq |}.

(** [Database.add_notification]: the row starts unread *)
Definition add_notification (type title : string) (msg : message)
    (db : database) : database :=
  let i := next_rowid (notifications_seq db) (notifications db) in
  let n := {| notif_type := type; notif_title := title; notif_message := msg;
              notif_is_read := false |} in
  with_notifications (<[i := n]> (notifications db)) i db.

Definition set_read (n : notification) : notification :=
  {| notif_type := notif_type n; notif_title := notif_title n;
     notif_message := notif_message n; notif_is_read := true |}.

(** [Database.mark_notification_read]:
    [UPDATE notifications SET is_read = TRUE WHERE id = ?] *)
Definition mark_notification_read (notification_id : Z) (db : database) : database :=
  with_notifications (alter set_read notification_id (notifications db))
                     (notifications_seq db) db.

(** [Database.get_unread_notifications_count] *)
Definition get_unread_notifications_count (db : database) : nat :=
  size (filter (λ kv, notif_is_read kv.2 = false) (notifications db)).

End WithHost.
End Database.
Import Database.

(** ** The request context: session, flashes and responses *)

Module Flask.
Section WithHost.
Context {host : Host}.

(** The entries of [cart_items] in [view_cart] and in [checkout]. *)
Record cart_line := {
  line_book : book;
  line_quantity : Z;
  line_total : real
}.

Record checkout_item := {
  ci_book_id : string;
  ci_quantity : Z;
  ci_price : real
}.

Inductive response :=
| redirect (endpoint : string)
| render_template (name : string)
| render_cart (cart_items : list cart_line) (total : real)
| render_checkout (cart_items : list cart_line) (total : real)
| render_order_confirmation (order_id : string) (total : real)
| jsonify_success
| unhandled (e : py_exception).

Record session := {
  cart : option (dict Z);
  flashes : list flash
}.

Definition add_flash (f : flash) (s : session) : session :=
  {| cart := cart s; flashes := flashes s ++ [f] |}.

Definition set_cart (c : option (dict Z)) (s : session) : session :=
  {| cart := c; flashes := flashes s |}.

End WithHost.
End Flask.
Import Flask.

(** ** [app_enhanced.py]: the storefront *)

Module AppEnhanced.
Section WithHost.
Context {host : Host}.

(** [add_to_cart]: a line already in the cart grows by the quantity *)
Definition add_to_cart (book_id : string) (quantity : Z) (s : session) : session :=
  let c := default [] (cart s) in
  let c' := match dict_get book_id c with
            | Some q => dict_set book_id (q + quantity) c
            | None => dict_set book_id quantity c
            end in
  add_flash flash_added_to_cart (set_cart (Some c') s).

Definition remove_from_cart (book_id : string) (s : session) : session :=
  match cart s with
  | Some c =>
      if dict_has book_id c
      then add_flash flash_item_removed (set_cart (Some (dict_del book_id c)) s)
      else s
  | None => s
  end.

Definition update_cart (book_id : string) (quantity : Z) (s : session) : session :=
  match cart s with
  | Some c =>
      if dict_has book_id c then
        if 0 <? quantity
        then add_flash flash_cart_updated (set_cart (Some (dict_set book_id quantity c)) s)
        else add_flash flash_item_removed (set_cart (Some (dict_del book_id c)) s)
      else s
  | None => s
  end.

(** What the loop of [view_cart] has built so far; it writes into the
    cart it iterates over. *)
Record cart_view := {
  view_live : dict Z;
  view_items : list cart_line;
  view_total : real;
  view_flashes : list flash
}.

(** One run of [for book_id, quantity in session['cart'].items()] over
    the lines still to come.  Assigning to the key at hand keeps the
    dictionary's size; [del] changes it, and the iterator refuses its
    next step, also when no line is left: [inr] is the state in which
    [RuntimeError] leaves the view. *)
Fixpoint view_cart_loop (db : database) (lines : dict Z) (v : cart_view)
    : cart_view + cart_view :=
  match lines with
  | [] => inl v
  | (book_id, quantity) :: rest =>
      match fetch_book db book_id with
      | Some b =>
          if quantity <=? book_stock b then
            let item_total := rmul_int (book_price b) quantity in
            view_cart_loop db rest
              {| view_live := view_live v;
                 view_items := view_items v ++
                   [{| line_book := b; line_quantity := quantity;
                       line_total := item_total |}];
                 view_total := radd (view_total v) item_total;
                 view_flashes := view_flashes v |}
          else
            let live := dict_set book_id (book_stock b) (view_live v) in
            if 0 <? book_stock b then
              let item_total := rmul_int (book_price b) (book_stock b) in
              view_cart_loop db rest
                {| view_live := live;
                   view_items := view_items v ++
                     [{| line_book := b; line_quantity := book_stock b;
                         line_total := item_total |}];
                   view_total := radd (view_total v) item_total;
                   view_flashes := view_flashes v ++
                     [flash_quantity_adjusted (book_title b)] |}
            else
              inr {| view_live := dict_del book_id live;
                     view_items := view_items v;
                     view_total := view_total v;
                     view_flashes := view_flashes v ++
                       [flash_out_of_stock (book_title b)] |}
      | None => view_cart_loop db rest v
      end
  end.

Definition view_cart (db : database) (s : session) : response * session :=
  match cart s with
  | None | Some [] => (render_cart [] rzero, s)
  | Some c =>
      match view_cart_loop db c
              {| view_live := c; view_items := []; view_total := rzero;
                 view_flashes := flashes s |} with
      | inl v =>
          (render_cart (view_items v) (view_total v),
           {| cart := Some (view_live v); flashes := view_flashes v |})
      | inr v =>
          (unhandled RuntimeError,
           {| cart := Some (view_live v); flashes := view_flashes v |})
      end
  end.

Record checkout_form := {
  customer_name : string;
  customer_email : string;
  customer_phone : string;
  shipping_address : string;
  payment_method : string
}.

(** How the first loop of [checkout] ends. *)
Inductive checked :=
| check_passed (total : real) (cart_items : list checkout_item)
| check_short (b : book)
| check_no_book.

(** "Calculate total and prepare items": every line is read and held
    against the stock read with it.  In the [else] branch the message
    subscripts [book]; a line whose book is gone ends there with
    [TypeError]. *)
Fixpoint checkout_check (db : database) (lines : dict Z) (total : real)
    (cart_items : list checkout_item) : checked :=
  match lines with
  | [] => check_passed total cart_items
  | (book_id, quantity) :: rest =>
      match fetch_book db book_id with
      | Some b =>
          if quantity <=? book_stock b then
            checkout_check db rest
              (radd total (rmul_int (book_price b) quantity))
              (cart_items ++ [{| ci_book_id := book_id; ci_quantity := quantity;
                                 ci_price := book_price b |}])
          else check_short b
      | None => check_no_book
      end
  end.

(** "Add order items and update stock", one turn of the second loop *)
Definition write_item (order_id : string) (db : database) (it : checkout_item)
    : database :=
  update_stock (ci_quantity it) (ci_book_id it)
    (insert_order_item
       {| item_order_id := order_id; item_book_id := ci_book_id it;
          item_quantity := ci_quantity it; item_price := ci_price it |} db).

(** "Create order" up to [conn.commit()]; [None] is the [IntegrityError]
    of an order identifier that is taken, with nothing committed. *)
Definition checkout_write (order_id : string) (form : checkout_form)
    (total : real) (cart_items : list checkout_item) (db : database)
    : option database :=
  db1 ← insert_order
          {| order_order_id := order_id;
             order_customer_name := customer_name form;
             order_customer_email := customer_email form;
             order_customer_phone := customer_phone form;
             order_shipping_address := shipping_address form;
             order_total_amount := total;
             order_status := "pending";
             order_payment_method := payment_method form |} db;
  Some (foldl (write_item order_id) db1 cart_items).

(** The rest of the POST branch, from the order identifier on. *)
Definition checkout_place (form : checkout_form) (random_bytes : Z)
    (total : real) (cart_items : list checkout_item)
    (db : database) (s : session) : response * database * session :=
  let order_id := new_order_id random_bytes in
  match checkout_write order_id form total cart_items db with
  | None => (unhandled IntegrityError, db, s)
  | Some db1 =>
      let db2 := add_notification "new_order" "New Order Received"
                   (msg_new_order order_id (customer_name form) total) db1 in
      (render_order_confirmation order_id total, db2,
       {| cart := None; flashes := flashes s ++ [flash_order_placed order_id] |})
  end.

(** The GET branch: "Calculate cart total for display" *)
Fixpoint checkout_display (db : database) (lines : dict Z)
    (cart_items : list cart_line) (total : real) : list cart_line * real :=
  match lines with
  | [] => (cart_items, total)
  | (book_id, quantity) :: rest =>
      match fetch_book db book_id with
      | Some b =>
          let item_total := rmul_int (book_price b) quantity in
          checkout_display db rest
            (cart_items ++ [{| line_book := b; line_quantity := quantity;
                               line_total := item_total |}])
            (radd total item_total)
      | None => checkout_display db rest cart_items total
      end
  end.

Definition checkout (method : http_method) (form : checkout_form)
    (random_bytes : Z) (db : database) (s : session)
    : response * database * session :=
  match cart s with
  | None | Some [] => (redirect "index", db, add_flash flash_cart_empty s)
  | Some c =>
      match method with
      | POST =>
          match checkout_check db c rzero [] with
          | check_passed total cart_items =>
              checkout_place form random_bytes total cart_items db s
          | check_short b =>
              (redirect "view_cart", db,
               add_flash (flash_insufficient_stock (book_title b) (book_stock b)) s)
          | check_no_book => (unhandled TypeError, db, s)
          end
      | GET =>
          let '(cart_items, total) := checkout_display db c [] rzero in
          (render_checkout cart_items total, db, s)
      end
  end.

(** [index]: [SELECT * FROM books WHERE stock > 0], the rows the
    storefront lists; [ORDER BY] only arranges them. *)
Definition index (db : database) : gmap Z book :=
  filter (λ kv, 0 < book_stock kv.2) (books db).

(** [api_cart_count]: [sum(session.get('cart', {}).values())] *)
Definition api_cart_count (s : session) : Z :=
  foldl (λ acc kv, acc + kv.2) 0 (default [] (cart s)).

(** *** Requests in flight

    A POST to [checkout] reads in its first loop and writes from
    [INSERT INTO orders] to [commit()].  The reads take no lock that
    outlives them, so the reads of another request can fall between
    the two.  A worker is a request at one of these points. *)
Inductive worker :=
| arrived (form : checkout_form) (random_bytes : Z) (s : session)
| checked_out (form : checkout_form) (random_bytes : Z) (s : session)
    (total : real) (cart_items : list checkout_item)
| answered (r : response) (s : session).

Definition worker_step (db : database) (w : worker) : database * worker :=
  match w with
  | arrived form random_bytes s =>
      match cart s with
      | None | Some [] =>
          (db, answered (redirect "index") (add_flash flash_cart_empty s))
      | Some c =>
          match checkout_check db c rzero [] with
          | check_passed total cart_items =>
              (db, checked_out form random_bytes s total cart_items)
          | check_short b =>
              (db, answered (redirect "view_cart")
                     (add_flash (flash_insufficient_stock (book_title b)
                                   (book_stock b)) s))
          | check_no_book => (db, answered (unhandled TypeError) s)
          end
      end
  | checked_out form random_bytes s total cart_items =>
      let '(r, db', s') := checkout_place form random_bytes total cart_items db s in
      (db', answered r s')
  | answered _ _ => (db, w)
  end.

(** The server runs the workers in the order of a schedule: each entry
    names the worker that takes its next step. *)
Fixpoint run_schedule (schedule : list nat) (db : database) (ws : list worker)
    : database * list worker :=
  match schedule with
  | [] => (db, ws)
  | i :: rest =>
      match ws !! i with
      | Some w =>
          let '(db', w') := worker_step db w in
          run_schedule rest db' (<[i := w']> ws)
      | None => run_schedule rest db ws
      end
  end.

(** Requests served one after the other, each to its end. *)
Fixpoint serve_all (db : database) (requests : list (checkout_form * Z * session))
    : database * list response :=
  match requests with
  | [] => (db, [])
  | (form, random_bytes, s) :: rest =>
      let '(r, db', _) := checkout POST form random_bytes db s in
      let '(db'', rs) := serve_all db' rest in
      (db'', r :: rs)
  end.

End WithHost.
End AppEnhanced.

(** ** [app.py]: the single-file application

    The same tables without the columns added later; the rows below
    leave those at their defaults. *)

Module App.
Section WithHost.
Context {host : Host}.

(** [view_cart]: the lines whose book exists, as the cart has them *)
Fixpoint view_cart_loop (db : database) (lines : dict Z)
    (cart_items : list cart_line) (total : real) : list cart_line * real :=
  match lines with
  | [] => (cart_items, total)
  | (book_id, quantity) :: rest =>
      match fetch_book db book_id with
      | Some b =>
          let item_total := rmul_int (book_price b) quantity in
          view_cart_loop db rest
            (cart_items ++ [{| line_book := b; line_quantity := quantity;
                               line_total := item_total |}])
            (radd total item_total)
      | None => view_cart_loop db rest cart_items total
      end
  end.

Definition view_cart (db : database) (s : session) : response * session :=
  match cart s with
  | None | Some [] => (render_cart [] rzero, s)
  | Some c =>
      let '(cart_items, total) := view_cart_loop db c [] rzero in
      (render_cart cart_items total, s)
  end.

Definition checkout_write (order_id customer_name customer_email : string)
    (total : real) (cart_items : list checkout_item) (db : database)
    : option database :=
  db1 ← insert_order
          {| order_order_id := order_id;
             order_customer_name := customer_name;
             order_customer_email := customer_email;
             order_customer_phone := "";
             order_shipping_address := "";
             order_total_amount := total;
             order_status := "pending";
             order_payment_method := "cash_on_delivery" |} db;
  Some (foldl (AppEnhanced.write_item order_id) db1 cart_items).

Definition checkout (method : http_method) (customer_name customer_email : string)
    (random_bytes : Z) (db : database) (s : session)
    : response * database * session :=
  match cart s with
  | None | Some [] => (redirect "index", db, add_flash flash_cart_empty s)
  | Some c =>
      match method with
      | POST =>
          match AppEnhanced.checkout_check db c rzero [] with
          | AppEnhanced.check_passed total cart_items =>
              let order_id := new_order_id random_bytes in
              match checkout_write order_id customer_name customer_email
                      total cart_items db with
              | None => (unhandled IntegrityError, db, s)
              | Some db1 =>
                  (redirect "index", db1,
                   {| cart := None;
                      flashes := flashes s ++ [flash_order_placed order_id] |})
              end
          | AppEnhanced.check_short b =>
              (redirect "view_cart", db,
               add_flash (flash_insufficient_stock_for (book_title b)) s)
          | AppEnhanced.check_no_book => (unhandled TypeError, db, s)
          end
      | GET => (render_template "checkout.html", db, s)
      end
  end.

(** The fields of the add-book form; [image] is the name the upload was
    saved under, if one was accepted. *)
Record book_form := {
  form_title : string;
  form_author : string;
  form_description : string;
  form_price : string;
  form_stock : string;
  form_genre : string;
  form_stock_threshold : option string;
  form_image : option string
}.

(** [admin_add_book]: the price goes to [float()] as it comes *)
Definition admin_add_book (method : http_method) (form : book_form)
    (db : database) (s : session) : response * database * session :=
  match method with
  | GET => (render_template "admin/add_book.html", db, s)
  | POST =>
      match py_float (form_price form) with
      | None => (unhandled ValueError, db, s)
      | Some price =>
          match py_int (form_stock form) with
          | None => (unhandled ValueError, db, s)
          | Some stock =>
              match insert_book
                      {| book_title := form_title form;
                         book_author := form_author form;
                         book_description := form_description form;
                         book_price := price; book_stock := stock;
                         book_genre := form_genre form;
                         book_image_filename := form_image form;
                         book_stock_threshold := 5 |} db with
              | None => (unhandled IntegrityError, db, s)
              | Some db1 =>
                  (redirect "admin_books", db1, add_flash flash_book_added_plain s)
              end
          end
      end
  end.

End WithHost.
End App.

(** ** [admin/routes.py]: the admin blueprint *)

Module Admin.
Section WithHost.
Context {host : Host}.

Import App.

(** The spellings the price check turns away. *)
Definition price_sentinels : list string :=
  ["nan"; "inf"; "-inf"; "infinity"; "-infinity"]%string.

(** The fields of a book form once they are through the checks. *)
Record valid_fields := {
  valid_price : real;
  valid_stock : Z;
  valid_threshold : Z
}.

(** "Validate price input", "Validate stock input", "Validate
    stock_threshold input": the checks [add_book] and [edit_book] share,
    in their order; [inl] is the message of the check that failed. *)
Definition validate_book_form (form : book_form) : flash + valid_fields :=
  let price_str := py_strip (form_price form) in
  if string_in (py_lower price_str) price_sentinels then inl flash_invalid_price
  else
    match py_float price_str with
    | None => inl flash_price_not_number
    | Some price =>
        if rlt0 price then inl flash_price_negative
        else
          match py_int (form_stock form) with
          | None => inl flash_stock_not_integer
          | Some stock =>
              if stock <? 0 then inl flash_stock_negative
              else
                match py_int (default "5"%string (form_stock_threshold form)) with
                | None => inl flash_threshold_not_integer
                | Some stock_threshold =>
                    if stock_threshold <? 0 then inl flash_threshold_negative
                    else inr {| valid_price := price; valid_stock := stock;
                                valid_threshold := stock_threshold |}
                end
          end
    end.

Definition add_book (method : http_method) (form : book_form)
    (db : database) (s : session) : response * database * session :=
  match method with
  | GET => (render_template "admin/add_book.html", db, s)
  | POST =>
      match validate_book_form form with
      | inl f => (render_template "admin/add_book.html", db, add_flash f s)
      | inr v =>
          match insert_book
                  {| book_title := form_title form;
                     book_author := form_author form;
                     book_description := form_description form;
                     book_price := valid_price v; book_stock := valid_stock v;
                     book_genre := form_genre form;
                     book_image_filename := form_image form;
                     book_stock_threshold := valid_threshold v |} db with
          | None => (unhandled IntegrityError, db, s)
          | Some db1 =>
              (redirect "admin.books",
               add_notification "book_added" "New Book Added"
                 (msg_book_added (form_title form) (form_author form)) db1,
               add_flash (flash_book_added (form_title form)) s)
          end
      end
  end.

(** [UPDATE books SET title=?, ..., stock_threshold=? WHERE id=?] *)
Definition update_book (book_id : Z) (b : book) (db : database) : option database :=
  if risnan (book_price b) then None
  else Some (with_books (alter (λ _, b) book_id (books db)) (books_seq db) db).

(** [edit_book]; "Check for low stock alert" sits between the checks
    and the update, and [add_notification] commits on its own. *)
Definition edit_book (method : http_method) (book_id : Z) (form : book_form)
    (db : database) (s : session) : response * database * session :=
  match books db !! book_id with
  | None => (redirect "admin.books", db, add_flash flash_book_not_found s)
  | Some b =>
      match method with
      | GET => (render_template "admin/edit_book.html", db, s)
      | POST =>
          match validate_book_form form with
          | inl f => (render_template "admin/edit_book.html", db, add_flash f s)
          | inr v =>
              let stock := valid_stock v in
              let stock_threshold := valid_threshold v in
              let old_stock := book_stock b in
              let db1 :=
                if (stock <=? stock_threshold) && (stock_threshold <? old_stock)
                then add_notification "low_stock" "Low Stock Alert"
                       (msg_low_stock (form_title form) stock) db
                else db in
              match update_book book_id
                      {| book_title := form_title form;
                         book_author := form_author form;
                         book_description := form_description form;
                         book_price := valid_price v; book_stock := stock;
                         book_genre := form_genre form;
                         book_image_filename :=
                           match form_image form with
                           | Some f => Some f
                           | None => book_image_filename b
                           end;
                         book_stock_threshold := stock_threshold |} db1 with
              | None => (unhandled IntegrityError, db1, s)
              | Some db2 =>
                  (redirect "admin.books", db2,
                   add_flash (flash_book_updated (form_title form)) s)
              end
          end
      end
  end.

(** The route [/notifications/<int:notification_id>/read] *)
Definition mark_notification_read (notification_id : Z) (db : database)
    : response * database :=
  (jsonify_success, Database.mark_notification_read notification_id db).

(** [filename.rsplit('.', 1)[1]] when ['.' in filename]: the text after
    the last dot. *)
Fixpoint after_last_dot (filename : string) : option string :=
  match filename with
  | EmptyString => None
  | String c rest =>
      match after_last_dot rest with
      | Some ext => Some ext
      | None => if Ascii.eqb c "."%char then Some rest else None
      end
  end.

Definition ALLOWED_EXTENSIONS : list string :=
  ["png"; "jpg"; "jpeg"; "gif"; "webp"]%string.

(** [allowed_file], the same in [app.py] and in [admin/routes.py] *)
Definition allowed_file (filename : string) : bool :=
  match after_last_dot filename with
  | Some ext => string_in (py_lower ext) ALLOWED_EXTENSIONS
  | None => false
  end.

End WithHost.
End Admin.

(** ** [utils/analytics.py]: what the dashboard and the inventory page
    read from the books

    A query is the finite map of the rows it selects; [ORDER BY] only
    arranges them.  The counts are the statements of
    [get_dashboard_stats] that read the books table. *)

Module Analytics.
Section WithHost.
Context {host : Host}.

(** [SELECT * FROM books WHERE stock <= stock_threshold AND stock > 0] *)
Definition get_low_stock_alerts (db : database) : gmap Z book :=
  filter (λ kv, book_stock kv.2 ≤ book_stock_threshold kv.2 ∧ 0 < book_stock kv.2)
         (books db).

(** [SELECT * FROM books WHERE stock = 0] *)
Definition get_out_of_stock_books (db : database) : gmap Z book :=
  filter (λ kv, book_stock kv.2 = 0) (books db).



End WithHost.
End Analytics.

(** ** A host on binary64 floats

    The instance the examples run on: prices are the kernel's IEEE
    doubles, and the readers accept the plain decimal spellings and
    the non-finite words of [float()].  They agree with Python and
    SQLite on the texts used below and read nothing else. *)

Module Double.

Fixpoint digits_value (s : string) (acc : Z) : option Z :=
  match s with
  | EmptyString => Some acc
  | String c rest =>
      let n := Z.of_nat (nat_of_ascii c) in
      if (48 <=? n) && (n <=? 57) then digits_value rest (10 * acc + (n - 48))
      else None
  end.

Definition decimal (s : string) : option Z :=
  match s with
  | EmptyString => None
  | _ => digits_value s 0
  end.

Definition signed {A} (neg : A -> A) (read : string -> option A) (s : string)
    : option A :=
  match s with
  | String "-" rest => neg <$> read rest
  | String "+" rest => read rest
  | _ => read s
  end.

Definition float_of_Z (z : Z) : float :=
  match z with
  | Z0 => 0%float
  | Zpos _ => PrimFloat.of_uint63 (Uint63.of_Z z)
  | Zneg _ => PrimFloat.opp (PrimFloat.of_uint63 (Uint63.of_Z (- z)))
  end.

Fixpoint split_at_dot (s : string) : string * option string :=
  match s with
  | EmptyString => (EmptyString, None)
  | String "." rest => (EmptyString, Some rest)
  | String c rest =>
      let '(whole, frac) := split_at_dot rest in (String c whole, frac)
  end.

Definition unsigned_float (s : string) : option float :=
  if string_in s ["inf"; "infinity"]%string then Some PrimFloat.infinity
  else if String.eqb s "nan" then Some PrimFloat.nan
  else
    match split_at_dot s with
    | (whole, None) => float_of_Z <$> decimal whole
    | (whole, Some frac) =>
        w ← decimal whole; f ← decimal frac;
        let scale := 10 ^ Z.of_nat (String.length frac) in
        Some (PrimFloat.div (float_of_Z (w * scale + f)) (float_of_Z scale))
    end.

Definition float_of_string (s : string) : option float :=
  signed PrimFloat.opp unsigned_float (py_lower (py_strip s)).

Definition int_of_string (s : string) : option Z :=
  signed Z.opp decimal (py_strip s).

#[export] Instance host : Host := {|
  real := float;
  rzero := 0%float;
  radd := PrimFloat.add;
  rmul_int := λ x n, PrimFloat.mul x (float_of_Z n);
  rlt0 := λ x, PrimFloat.ltb x 0%float;
  risnan := PrimFloat.is_nan;
  py_float := float_of_string;
  py_int := int_of_string;
  sql_rowid := decimal
|}.

End Double.

(** ** The vocabulary of the properties *)

Section Vocabulary.
Context {host : Host}.

(** [Σ quantity * price] over order lines, summed in row order from the
    same 0 the handler starts from. *)
Definition sum_of_items (its : list order_item) : real :=
  foldl (λ acc it, radd acc (rmul_int (item_price it) (item_quantity it))) rzero its.

(** [SELECT * FROM order_items WHERE order_id = ?] *)
Definition items_of_order (oid : string) (db : database) : list order_item :=
  filter (λ it, item_order_id it = oid) (order_items db).

(** Every order line belongs to an order of the table. *)
Definition items_belong_to_orders (db : database) : Prop :=
  Forall (λ it, order_id_taken (item_order_id it) db = true) (order_items db).

(** No book is oversold. *)
Definition stocks_nonneg (db : database) : Prop :=
  map_Forall (λ _ b, 0 ≤ book_stock b) (books db).

(** The rows the lines of a cart select, line by line. *)
Definition cart_rows (c : dict Z) : list Z := omap (λ kv, sql_rowid kv.1) c.

(** No two lines of the cart select the same book. *)
Definition cart_rows_distinct (s : session) : Prop :=
  NoDup (cart_rows (default [] (cart s))).

(** The notifications of one type. *)
Definition notifications_of_type (type : string) (db : database)
    : gmap Z notification :=
  filter (λ kv, notif_type kv.2 = type) (notifications db).

(** The line of the cart at [book_id] stands for a book that is there
    and has the quantity in stock. *)
Definition line_in_stock (db : database) (line : string * Z) : Prop :=
  ∃ b, fetch_book db line.1 = Some b ∧ line.2 ≤ book_stock b.

(** The order line [checkout] writes for a prepared item. *)
Definition as_order_item (oid : string) (it : checkout_item) : order_item :=
  {| item_order_id := oid; item_book_id := ci_book_id it;
     item_quantity := ci_quantity it; item_price := ci_price it |}.

(** A prepared item of [checkout] repeats its cart line and carries the
    price and the stock bound read with it. *)
Definition prepared_from (db : database) (line : string * Z)
    (it : checkout_item) : Prop :=
  ci_book_id it = line.1 ∧ ci_quantity it = line.2
  ∧ ∃ b, fetch_book db line.1 = Some b ∧ ci_price it = book_price b
         ∧ line.2 ≤ book_stock b.

(** The line that makes [view_cart] delete from the cart it iterates
    over: its book is there with nothing in stock, and the line asks
    for more. *)
Definition sold_out (db : database) (line : string * Z) : Prop :=
  ∃ b, fetch_book db line.1 = Some b ∧ book_stock b < line.2 ∧ book_stock b ≤ 0.

Definition placed (r : response) : bool :=
  match r with render_order_confirmation _ _ => true | _ => false end.

(** The keys of a dictionary are distinct. *)
Definition is_dict {V} (d : dict V) : Prop := NoDup d.*1.

(** What the lines of a cart ask of the row [i], all lines together. *)
Definition ordered_quantity (c : dict Z) (i : Z) : Z :=
  foldr (λ kv acc, if decide (sql_rowid kv.1 = Some i) then kv.2 + acc else acc) 0 c.

(** A cart line held against the stock: the quantity, or the stock
    where the stock is less; a line whose book is gone stays as it is. *)
Definition clamp_line (db : database) (line : string * Z) : string * Z :=
  match fetch_book db line.1 with
  | Some b => (line.1, Z.min line.2 (book_stock b))
  | None => line
  end.

(** The entry of the cart page for a line; none when the book is gone. *)
Definition shown_line (db : database) (line : string * Z) : option cart_line :=
  b ← fetch_book db line.1;
  Some {| line_book := b; line_quantity := Z.min line.2 (book_stock b);
          line_total := rmul_int (book_price b) (Z.min line.2 (book_stock b)) |}.

(** The warning of the cart page for a line that was cut down. *)
Definition adjusted_warning (db : database) (line : string * Z) : option flash :=
  b ← fetch_book db line.1;
  if line.2 <=? book_stock b then None
  else Some (flash_quantity_adjusted (book_title b)).

(** The sum of the line totals of a cart page, as the page adds them. *)
Definition sum_of_lines (total : real) (ls : list cart_line) : real :=
  foldl (λ acc l, radd acc (line_total l)) total ls.

(** The books the admin forms let through: price not below zero and
    not NaN, stock and threshold not below zero. *)
Definition book_ok (b : book) : Prop :=
  rlt0 (book_price b) = false ∧ risnan (book_price b) = false
  ∧ 0 ≤ book_stock b ∧ 0 ≤ book_stock_threshold b.


End Vocabulary.

(** ** Sample rows, carts and forms *)

Module Examples.
Import Double.

Definition history_book (stock : Z) : book :=
  {| book_title := "World History: A Complete Overview";
     book_author := "Dr. Michael Brown";
     book_description := "Comprehensive overview of world history from ancient times to present.";
     book_price := 39.99%float; book_stock := stock;
     book_genre := "History"; book_image_filename := None;
     book_stock_threshold := 3 |}.

Definition gatsby (stock : Z) : book :=
  {| book_title := "The Great Gatsby";
     book_author := "F. Scott Fitzgerald";
     book_description := "A classic American novel set in the Jazz Age, exploring themes of wealth, love, and the American Dream.";
     book_price := 12.99%float; book_stock := stock;
     book_genre := "Fiction"; book_image_filename := None;
     book_stock_threshold := 5 |}.

(** A store with The Great Gatsby as book 1 and the history book as
    book 7, and nothing sold yet. *)
Definition store (gatsby_stock history_stock : Z) : database :=
  {| books := <[1 := gatsby gatsby_stock]> (<[7 := history_book history_stock]> ∅);
     books_seq := 10;
     orders := []; order_items := [];
     notifications := ∅; notifications_seq := 0 |}.

Definition basket (lines : dict Z) : session :=
  {| cart := Some lines; flashes := [] |}.

Definition customer (name : string) : AppEnhanced.checkout_form :=
  {| AppEnhanced.customer_name := name;
     AppEnhanced.customer_email := "reader@example.com";
     AppEnhanced.customer_phone := "";
     AppEnhanced.shipping_address := "";
     AppEnhanced.payment_method := "cash_on_delivery" |}.

(** Two draws of [os.urandom(16)]. *)
Definition draw_a : Z := 0x54e716ae0123456789abcdef01234567.
Definition draw_b : Z := 0x0a1b2c3d99887766554433221100ffee.

Definition new_book (price : string) : App.book_form :=
  {| App.form_title := "Dune"; App.form_author := "Frank Herbert";
     App.form_description := ""; App.form_price := price;
     App.form_stock := "3"; App.form_genre := "Science Fiction";
     App.form_stock_threshold := None; App.form_image := None |}.

Definition alert (is_read : bool) : notification :=
  {| notif_type := "low_stock"; notif_title := "Low Stock Alert";
     notif_message := msg_low_stock "The Great Gatsby" 4;
     notif_is_read := is_read |}.

Definition inbox (is_read : bool) : database :=
  {| books := ∅; books_seq := 0; orders := []; order_items := [];
     notifications := <[1 := alert is_read]> ∅; notifications_seq := 1 |}.

End Examples.

(** * Properties *)

(** ** Notifications *)

Section NotificationFacts.
Context {host : Host}.

Lemma with_notifications_same (db : database) :
  with_notifications (notifications db) (notifications_seq db) db = db.
Proof. by destruct db. Qed.

Lemma mark_read_unchanged (i : Z) (db : database) :
  (∀ n, notifications db !! i = Some n → notif_is_read n = true) →
  Database.mark_notification_read i db = db.
Proof.
  intros Hread. unfold Database.mark_notification_read.
  rewrite alter_id; [apply with_notifications_same|].
  intros n Hn. specialize (Hread n Hn). destruct n; simpl in *. by subst.
Qed.

(** Marking twice is marking once, whatever the row was. *)
Lemma mark_notification_read_twice (i : Z) (db : database) :
  Database.mark_notification_read i (Database.mark_notification_read i db)
  = Database.mark_notification_read i db.
Proof.
  apply mark_read_unchanged. intros n. simpl.
  rewrite lookup_alter_eq. destruct (notifications db !! i); naive_solver.
Qed.

(** Rows other than the one named keep their read state. *)
Lemma mark_notification_read_other (i j : Z) (db : database) :
  i ≠ j →
  notifications (Database.mark_notification_read i db) !! j = notifications db !! j.
Proof. intros Hne. simpl. by rewrite lookup_alter_ne. Qed.

(** C7: marking a notification that is already read answers with
    success and leaves the whole database, and with it every
    notification, as it was. *)
Theorem mark_read_already_read (i : Z) (n : notification) (db : database) :
  notifications db !! i = Some n →
  notif_is_read n = true →
  Admin.mark_notification_read i db = (jsonify_success, db)
  ∧ notifications (Database.mark_notification_read i db) !! i = Some n.
Proof.
  intros Hn Hread.
  assert (Database.mark_notification_read i db = db) as Heq.
  { apply mark_read_unchanged. intros n' Hn'. congruence. }
  unfold Admin.mark_notification_read. rewrite Heq. done.
Qed.

(** C9: marking an identifier that no row has answers with success and
    changes no row. *)
Theorem mark_read_unknown_id (i : Z) (db : database) :
  notifications db !! i = None →
  Admin.mark_notification_read i db = (jsonify_success, db).
Proof.
  intros Hnone. unfold Admin.mark_notification_read.
  rewrite mark_read_unchanged; [done|]. intros n Hn. congruence.
Qed.

End NotificationFacts.

Lemma mark_read_already_read_witness :
  notifications (Examples.inbox true) !! 1 = Some (Examples.alert true)
  ∧ Admin.mark_notification_read 1 (Examples.inbox true)
    = (jsonify_success, Examples.inbox true).
Proof.
  assert (notifications (Examples.inbox true) !! 1 = Some (Examples.alert true))
    as Hrow by reflexivity.
  split; [exact Hrow|].
  exact (proj1 (mark_read_already_read 1 _ _ Hrow eq_refl)).
Defined.

Lemma mark_read_unknown_id_witness :
  notifications (Examples.inbox false) !! 5 = None
  ∧ Admin.mark_notification_read 5 (Examples.inbox false)
    = (jsonify_success, Examples.inbox false).
Proof.
  assert (notifications (Examples.inbox false) !! 5 = None)
    as Hrow by reflexivity.
  split; [exact Hrow|].
  exact (mark_read_unknown_id 5 _ Hrow).
Defined.

(** ** Order identifiers *)

Lemma hex_digits_length (w : nat) (n : Z) : length (hex_digits w n) = w.
Proof.
  revert n. induction w as [|w IH]; intros n; simpl; [done|].
  rewrite length_app, IH. simpl. lia.
Qed.

Lemma hex_char_in_alphabet (d : Z) : 0 ≤ d < 16 → hex_char d ∈ hex_alphabet.
Proof.
  intros Hd. unfold hex_char. apply list_elem_of_In, nth_In.
  change (length hex_alphabet) with 16%nat. lia.
Qed.

Lemma hex_digits_in_alphabet (w : nat) (n : Z) :
  Forall (λ c, c ∈ hex_alphabet) (hex_digits w n).
Proof.
  revert n. induction w as [|w IH]; intros n; simpl; [constructor|].
  apply Forall_app. split; [apply IH|].
  constructor; [|constructor].
  apply hex_char_in_alphabet, Z.mod_pos_bound. lia.
Qed.

Lemma upper_char_hex (c : ascii) :
  c ∈ hex_alphabet → upper_char c ∈ order_id_alphabet.
Proof.
  intros Hc.
  assert (Forall (λ c, upper_char c ∈ order_id_alphabet) hex_alphabet) as Hall.
  { unfold hex_alphabet, order_id_alphabet. simpl.
    repeat constructor. }
  rewrite Forall_forall in Hall. by apply Hall.
Qed.

(** The first [w] of [w + j] digits are the digits of the number
    without its last [j] digits. *)
Lemma take_hex_digits (w j : nat) (n : Z) :
  take w (hex_digits (w + j) n) = hex_digits w (n / 16 ^ Z.of_nat j).
Proof.
  revert n. induction j as [|j IH]; intros n.
  - rewrite Nat.add_0_r, Z.pow_0_r, Z.div_1_r.
    apply take_ge. rewrite hex_digits_length. lia.
  - replace (w + S j)%nat with (S (w + j)) by lia. simpl hex_digits.
    rewrite take_app_le by (rewrite hex_digits_length; lia).
    rewrite IH. f_equal.
    rewrite Nat2Z.inj_succ, Z.pow_succ_r by lia.
    rewrite Z.div_div by lia. done.
Qed.

Lemma uuid_str_prefix (u : Z) : take 8 (uuid_str u) = hex_digits 8 (u / 16 ^ 24).
Proof.
  unfold uuid_str.
  rewrite take_app_length' by (rewrite length_take, hex_digits_length; lia).
  apply (take_hex_digits 8 24).
Qed.

(** Setting the version and the variant leaves the first 32 of the 128
    bits as they were drawn. *)
Lemma uuid4_high_bits (random_bytes : Z) :
  uuid4 random_bytes / 16 ^ 24 = (random_bytes mod 2 ^ 128) / 16 ^ 24.
Proof.
  unfold uuid4.
  change (16 ^ 24) with (2 ^ 96).
  rewrite <- !Z.shiftr_div_pow2 by lia.
  apply Z.bits_inj'. intros n Hn.
  rewrite !Z.shiftr_spec by lia.
  rewrite Z.lor_spec, Z.land_spec, Z.lor_spec, Z.land_spec.
  rewrite !Z.lnot_spec by lia.
  rewrite !Z.shiftl_spec by lia.
  rewrite (Z.bits_above_log2 4) by (simpl; lia).
  rewrite (Z.bits_above_log2 0xc000) by (simpl; lia).
  rewrite (Z.bits_above_log2 0x8000) by (simpl; lia).
  rewrite (Z.bits_above_log2 0xf000) by (simpl; lia).
  simpl. by rewrite !orb_false_r, !andb_true_r.
Qed.

Lemma length_string_of_list_ascii (l : list ascii) :
  String.length (string_of_list_ascii l) = length l.
Proof. induction l as [|c l IH]; simpl; [done|by rewrite IH]. Qed.

(** What [checkout] can name an order: the eight upper-case hex digits
    of the first four random bytes. *)
Lemma new_order_id_spec (random_bytes : Z) :
  let k := (random_bytes mod 2 ^ 128) / 16 ^ 24 in
  new_order_id random_bytes = order_id_of_prefix k ∧ 0 ≤ k < 16 ^ 8.
Proof.
  intros k. split.
  - unfold new_order_id, order_id_of_prefix.
    by rewrite uuid_str_prefix, uuid4_high_bits.
  - subst k. change (2 ^ 128) with (16 ^ 24 * 16 ^ 8).
    pose proof (Z.mod_pos_bound random_bytes (16 ^ 24 * 16 ^ 8) ltac:(lia)).
    split; [apply Z.div_pos; lia|apply Z.div_lt_upper_bound; lia].
Qed.

Lemma order_id_of_prefix_chars (k : Z) :
  String.length (order_id_of_prefix k) = 8%nat
  ∧ Forall (λ c, c ∈ order_id_alphabet)
      (list_ascii_of_string (order_id_of_prefix k)).
Proof.
  unfold order_id_of_prefix. split.
  - by rewrite length_string_of_list_ascii, length_map, hex_digits_length.
  - rewrite list_ascii_of_string_of_list_ascii.
    apply Forall_map. eapply Forall_impl; [apply hex_digits_in_alphabet|].
    intros c. apply upper_char_hex.
Qed.

(** Every 32-bit prefix is drawn by some sixteen bytes. *)
Lemma order_id_of_prefix_drawn (k : Z) :
  0 ≤ k < 16 ^ 8 → new_order_id (k * 16 ^ 24) = order_id_of_prefix k.
Proof.
  intros Hk. rewrite (proj1 (new_order_id_spec _)).
  f_equal. rewrite Z.mod_small by lia. apply Z.div_mul. lia.
Qed.

(** C6, as the specification has it, fails: no 36 distinct characters
    can all occur in order identifiers. *)
Lemma order_id_alphabet_below_36 :
  ¬ ∃ cs : list ascii,
      NoDup cs ∧ (36 ≤ length cs)%nat
      ∧ ∀ c, c ∈ cs →
          ∃ random_bytes, c ∈ list_ascii_of_string (new_order_id random_bytes).
Proof.
  intros (cs & Hnodup & Hlen & Hocc).
  assert (cs ⊆+ order_id_alphabet) as Hsub.
  { apply NoDup_submseteq; [done|]. intros c Hc.
    destruct (Hocc c Hc) as [rb Hin].
    rewrite (proj1 (new_order_id_spec rb)) in Hin.
    pose proof (proj2 (order_id_of_prefix_chars
                         ((rb mod 2 ^ 128) / 16 ^ 24))) as Hall.
    rewrite Forall_forall in Hall. by apply Hall. }
  apply submseteq_length in Hsub.
  change (length order_id_alphabet) with 16%nat in Hsub. lia.
Qed.

(** ** Checkout: what is written *)

(** The cases of a POST to [checkout], by the point where it ends. *)
Ltac checkout_cases H :=
  unfold AppEnhanced.checkout, AppEnhanced.checkout_place in H;
  match type of H with
  | context [cart ?s] =>
      let Hcart := fresh "Hcart" in
      destruct (cart s) as [[|[? ?] ?]|] eqn:Hcart
  end;
  try match type of H with
  | context [AppEnhanced.checkout_check ?db ?c ?t ?i] =>
      let Hcheck := fresh "Hcheck" in
      destruct (AppEnhanced.checkout_check db c t i) as [? ?|?|] eqn:Hcheck
  end;
  try match type of H with
  | context [AppEnhanced.checkout_write ?o ?f ?t ?i ?d] =>
      let Hwrite := fresh "Hwrite" in
      destruct (AppEnhanced.checkout_write o f t i d) eqn:Hwrite
  end;
  simplify_eq.

Section CheckoutFacts.
Context {host : Host}.

Import AppEnhanced.

Lemma checkout_check_passed db lines total items t its :
  checkout_check db lines total items = check_passed t its →
  ∃ new,
    its = items ++ new
    ∧ Forall2 (prepared_from db) lines new
    ∧ t = foldl (λ acc it, radd acc (rmul_int (ci_price it) (ci_quantity it)))
            total new.
Proof.
  revert total items.
  induction lines as [|[book_id quantity] rest IH]; intros total items Hcheck;
    simpl in Hcheck.
  - injection Hcheck as <- <-. exists []. by rewrite app_nil_r.
  - destruct (fetch_book db book_id) as [b|] eqn:Hb; [|done].
    destruct (quantity <=? book_stock b) eqn:Hq; [|done].
    apply IH in Hcheck as (new & -> & Hnew & ->).
    eexists (_ :: new). rewrite <- app_assoc. split; [done|]. split; [|done].
    constructor; [|done]. repeat split; simpl. exists b. split; [done|].
    split; [done|lia].
Qed.

Lemma checkout_check_short db lines total items b :
  checkout_check db lines total items = check_short b →
  ∃ book_id quantity,
    (book_id, quantity) ∈ lines ∧ fetch_book db book_id = Some b
    ∧ book_stock b < quantity.
Proof.
  revert total items.
  induction lines as [|[book_id quantity] rest IH]; intros total items Hcheck;
    simpl in Hcheck; [done|].
  destruct (fetch_book db book_id) as [b'|] eqn:Hb; [|done].
  destruct (quantity <=? book_stock b') eqn:Hq.
  - apply IH in Hcheck as (k & q & Hin & Hk & Hlt).
    exists k, q. split; [by right|done].
  - injection Hcheck as ->. exists book_id, quantity.
    split; [by left|]. split; [done|lia].
Qed.

Lemma write_items_orders oid db its :
  orders (foldl (write_item oid) db its) = orders db.
Proof.
  revert db. induction its as [|it its IH]; intros db; simpl; [done|].
  rewrite IH. unfold write_item, update_stock.
  by destruct (sql_rowid (ci_book_id it)).
Qed.

Lemma write_items_notifications oid db its :
  notifications (foldl (write_item oid) db its) = notifications db
  ∧ notifications_seq (foldl (write_item oid) db its) = notifications_seq db.
Proof.
  revert db. induction its as [|it its IH]; intros db; simpl; [done|].
  destruct (IH (write_item oid db it)) as [-> ->].
  unfold write_item, update_stock.
  by destruct (sql_rowid (ci_book_id it)).
Qed.

Lemma write_items_order_items oid db its :
  order_items (foldl (write_item oid) db its)
  = order_items db ++ map (as_order_item oid) its.
Proof.
  revert db. induction its as [|it its IH]; intros db; simpl.
  - by rewrite app_nil_r.
  - rewrite IH. unfold write_item, update_stock.
    destruct (sql_rowid (ci_book_id it)); simpl; by rewrite <- app_assoc.
Qed.

Lemma checkout_write_spec oid form total its db db1 :
  checkout_write oid form total its db = Some db1 →
  order_id_taken oid db = false
  ∧ (∃ o, orders db1 = orders db ++ [o] ∧ order_order_id o = oid
          ∧ order_total_amount o = total
          ∧ order_customer_name o = customer_name form)
  ∧ order_items db1 = order_items db ++ map (as_order_item oid) its
  ∧ notifications db1 = notifications db.
Proof.
  unfold checkout_write, insert_order. simpl.
  destruct (order_id_taken oid db) eqn:Htaken; simpl; [done|].
  intros [= <-]. split; [done|].
  rewrite write_items_orders, write_items_order_items.
  rewrite (proj1 (write_items_notifications _ _ _)). simpl.
  split; [|done]. eexists. split; [done|]. done.
Qed.

(** Only a placed order changes the database. *)
Lemma checkout_frame method form random_bytes db s r db' s' :
  checkout method form random_bytes db s = (r, db', s') →
  placed r = false → db' = db.
Proof.
  intros Hrun Hr. destruct method.
  - unfold checkout in Hrun.
    destruct (cart s) as [[|[? ?] ?]|]; try by injection Hrun as <- <- <-.
    destruct (checkout_display db _ [] rzero).
    by injection Hrun as <- <- <-.
  - checkout_cases Hrun; done.
Qed.

Lemma no_items_of_unused_order oid db :
  items_belong_to_orders db → order_id_taken oid db = false →
  items_of_order oid db = [].
Proof.
  unfold items_belong_to_orders, items_of_order. intros Hall Hfree.
  induction Hall as [|it its Hit _ IH]; [done|].
  rewrite filter_cons. case_decide as Heq; [|done].
  subst oid. congruence.
Qed.

Lemma own_items_of_order oid (new : list checkout_item) :
  filter (λ it, item_order_id it = oid) (map (as_order_item oid) new)
  = map (as_order_item oid) new.
Proof.
  induction new as [|it new IH]; [done|].
  rewrite map_cons, filter_cons_True by done. by rewrite IH.
Qed.

(** The hypothesis of the statement below is an invariant: it holds of
    the empty tables and every checkout keeps it. *)
Lemma checkout_keeps_items_with_orders method form random_bytes db s r db' s' :
  items_belong_to_orders db →
  checkout method form random_bytes db s = (r, db', s') →
  items_belong_to_orders db'.
Proof.
  intros Hinv Hrun.
  destruct (placed r) eqn:Hplaced.
  2: { by rewrite (checkout_frame _ _ _ _ _ _ _ _ Hrun Hplaced). }
  destruct method.
  { unfold checkout in Hrun.
    destruct (cart s) as [[|[? ?] ?]|];
      try destruct (checkout_display db _ [] rzero); by simplify_eq. }
  checkout_cases Hrun; try done.
  remember (new_order_id random_bytes) as oid eqn:Hdraw. clear Hdraw.
  apply checkout_write_spec in Hwrite as (_ & (o & Ho & Hoid & _) & Hitems & _).
  unfold items_belong_to_orders, order_id_taken in *.
  cbn [order_items orders add_notification with_notifications].
  rewrite Hitems, Ho. apply Forall_app. split.
  - eapply Forall_impl; [exact Hinv|]. intros it Hit.
    rewrite existsb_app, Hit. done.
  - apply Forall_map, Forall_forall. intros it _.
    rewrite existsb_app. cbn [existsb item_order_id as_order_item].
    rewrite Hoid, String.eqb_refl. by rewrite orb_true_r.
Qed.


(** C3: the amount written on a placed order is the sum, in row order,
    of quantity times price over the order lines written with it, and
    each of those prices is the price of the line's book as the
    checkout read it. *)
Theorem checkout_total_is_sum_of_items form random_bytes db s oid total db' s' :
  items_belong_to_orders db →
  checkout POST form random_bytes db s
    = (render_order_confirmation oid total, db', s') →
  ∃ o,
    orders db' = orders db ++ [o]
    ∧ order_order_id o = oid
    ∧ order_total_amount o = total
    ∧ order_total_amount o = sum_of_items (items_of_order oid db')
    ∧ order_items db' = order_items db ++ items_of_order oid db'
    ∧ Forall (λ it, ∃ b, fetch_book db (item_book_id it) = Some b
                         ∧ item_price it = book_price b)
        (items_of_order oid db').
Proof.
  intros Hinv Hrun. checkout_cases Hrun.
  apply checkout_check_passed in Hcheck as (new & Hits & Hnew & Htotal).
  simpl in Hits. subst cart_items.
  apply checkout_write_spec in Hwrite as (Hfree & (o & Ho & Hoid & Hamount & _) & Hitems & _).
  remember (new_order_id random_bytes) as oid eqn:Hoid_def. clear Hoid_def.
  assert (items_of_order oid
            (add_notification "new_order" "New Order Received"
               (msg_new_order oid (customer_name form) total) d)
          = map (as_order_item oid) new) as Hmine.
  { unfold items_of_order, add_notification, with_notifications.
    cbn [order_items]. rewrite Hitems, filter_app.
    fold (items_of_order oid db).
    rewrite (no_items_of_unused_order _ _ Hinv Hfree).
    apply own_items_of_order. }
  exists o. rewrite Hmine. simpl. repeat split; try done.
  - rewrite Hamount, Htotal. unfold sum_of_items.
    by rewrite (foldl_fmap _ _ _ (as_order_item oid)).
  - apply Forall_map. clear -Hnew.
    induction Hnew as [|line it lines new (Hkey & _ & b & Hb & Hprice & _) _ IH];
      constructor; [|done].
    exists b. simpl. by rewrite Hkey.
Qed.

(** C6, as the code has it: the identifier of every checkout is
    exactly eight characters, each one of the sixteen characters
    [0-9A-F]; it is the upper-case hex of the first 32 random bits, so
    that at most [16^8 = 2^32] identifiers exist, fewer than [36^8].
    It is unique among the orders: an order is placed only under an
    identifier that no earlier order has. *)
Theorem order_id_is_eight_hex_digits form random_bytes db s r db' s' :
  checkout POST form random_bytes db s = (r, db', s') →
  let oid := new_order_id random_bytes in
  String.length oid = 8%nat
  ∧ Forall (λ c, c ∈ order_id_alphabet) (list_ascii_of_string oid)
  ∧ length order_id_alphabet = 16%nat
  ∧ (∃ k, 0 ≤ k < 16 ^ 8 ∧ oid = order_id_of_prefix k)
  ∧ 16 ^ 8 < 36 ^ 8
  ∧ (placed r = true →
     order_id_taken oid db = false
     ∧ ∃ o, orders db' = orders db ++ [o] ∧ order_order_id o = oid).
Proof.
  intros Hrun oid.
  destruct (new_order_id_spec random_bytes) as [Hid Hk].
  destruct (order_id_of_prefix_chars ((random_bytes mod 2 ^ 128) / 16 ^ 24))
    as [Hlen Hchars].
  subst oid. rewrite Hid, Hlen. do 2 (split; [done|]).
  split; [done|]. split; [eauto|]. split; [done|].
  rewrite <- Hid. intros Hplaced.
  checkout_cases Hrun; try done.
  apply checkout_write_spec in Hwrite as (Hfree & (o & Ho & Hoid & _) & _).
  split; [done|]. exists o. done.
Qed.

End CheckoutFacts.

(** ** Checkout: what stays as it was *)

Section CheckoutFrame.
Context {host : Host}.

Import AppEnhanced.

(** The key of a new row is above every key of the table. *)
Lemma next_rowid_above {A} (seq : Z) (rows : gmap Z A) (i : Z) (x : A) :
  rows !! i = Some x → i < next_rowid seq rows.
Proof.
  unfold next_rowid. revert i x.
  apply (map_fold_weak_ind
           (λ top (m : gmap Z A), ∀ i x, m !! i = Some x → i < 1 + top)).
  - intros i x. by rewrite lookup_empty.
  - intros j y m top _ IH i x. rewrite lookup_insert.
    case_decide as Hij; [intros _; lia|].
    intros Hi. specialize (IH i x Hi). lia.
Qed.

Lemma next_rowid_fresh {A} (seq : Z) (rows : gmap Z A) :
  rows !! next_rowid seq rows = None.
Proof.
  destruct (rows !! next_rowid seq rows) as [x|] eqn:Hrow; [|done].
  apply (next_rowid_above seq) in Hrow. lia.
Qed.

(** [add_notification] appends: the rows that were there stay. *)
Lemma add_notification_keeps type title msg db i n :
  notifications db !! i = Some n →
  notifications (add_notification type title msg db) !! i = Some n.
Proof.
  intros Hn. simpl. rewrite lookup_insert_ne; [done|].
  intros <-. by rewrite next_rowid_fresh in Hn.
Qed.

Lemma add_notification_other_type type title msg db wanted :
  type ≠ wanted →
  notifications_of_type wanted (add_notification type title msg db)
  = notifications_of_type wanted db.
Proof.
  intros Hne. unfold notifications_of_type. simpl.
  rewrite map_filter_insert_False by (simpl; done).
  by rewrite delete_id by apply next_rowid_fresh.
Qed.

(** C10: a checkout that ends on insufficient stock leaves the cart and
    the database as they were and only adds its message; and whenever
    a checkout changes the cart, the order, its lines and the stock
    updates were committed before, and the cart is then removed. *)
Theorem checkout_cart_kept_until_commit method form random_bytes db s r db' s' :
  checkout method form random_bytes db s = (r, db', s') →
  (r = redirect "view_cart" →
     db' = db ∧ cart s' = cart s
     ∧ ∃ b, s' = add_flash (flash_insufficient_stock (book_title b) (book_stock b)) s)
  ∧ (cart s' ≠ cart s →
     ∃ total cart_items db1,
       checkout_write (new_order_id random_bytes) form total cart_items db = Some db1
       ∧ db' = add_notification "new_order" "New Order Received"
                 (msg_new_order (new_order_id random_bytes) (customer_name form) total)
                 db1
       ∧ r = render_order_confirmation (new_order_id random_bytes) total
       ∧ cart s' = None).
Proof.
  intros Hrun. destruct method.
  - unfold checkout in Hrun.
    destruct (cart s) as [[|[? ?] ?]|] eqn:Hcart;
      try destruct (checkout_display db _ [] rzero);
      simplify_eq; simpl; split; try done; intros; congruence.
  - checkout_cases Hrun; simpl; (split; [try done|try congruence]).
    + intros _. eauto 10.
    + intros _. eauto.
Qed.

(** C1, where the code leaves it: a line whose book is gone, met before
    any line that is short of stock, ends the checkout with [TypeError]
    and not with the insufficient-stock message; the database and the
    session stay as they were. *)
Theorem checkout_absent_book_raises form random_bytes db s before book_id quantity after :
  cart s = Some (before ++ (book_id, quantity) :: after) →
  Forall (line_in_stock db) before →
  fetch_book db book_id = None →
  checkout POST form random_bytes db s = (unhandled TypeError, db, s).
Proof.
  intros Hcart Hbefore Hgone.
  assert (∀ total items,
            checkout_check db (before ++ (book_id, quantity) :: after) total items
            = check_no_book) as Hcheck.
  { clear Hcart.
    induction Hbefore as [|[k q] rest (b & Hb & Hq) _ IH]; intros total items; simpl.
    - by rewrite Hgone.
    - simpl in Hb, Hq. rewrite Hb.
      destruct (q <=? book_stock b) eqn:Hle; [apply IH|lia]. }
  unfold checkout. rewrite Hcart.
  destruct (before ++ (book_id, quantity) :: after) as [|line lines] eqn:Hlines.
  { by destruct before. }
  by rewrite Hcheck.
Qed.

(** The other half of C1 holds: when every line names a book that is
    there and one line asks for more than its stock, the checkout ends
    with the insufficient-stock message and the database stays as it
    was. *)
Lemma checkout_short_line_aborts form random_bytes db s c :
  cart s = Some c →
  Forall (λ line, is_Some (fetch_book db line.1)) c →
  Exists (λ line, ∃ b, fetch_book db line.1 = Some b ∧ book_stock b < line.2) c →
  ∃ b, checkout POST form random_bytes db s
       = (redirect "view_cart", db,
          add_flash (flash_insufficient_stock (book_title b) (book_stock b)) s).
Proof.
  intros Hcart Hthere Hshort.
  assert (∀ total items, ∃ b, checkout_check db c total items = check_short b)
    as Hcheck.
  { clear Hcart. induction c as [|[k q] rest IH]; intros total items.
    { by apply Exists_nil in Hshort. }
    apply Forall_cons in Hthere as [[b Hb] Hthere]. simpl in Hb. simpl. rewrite Hb.
    destruct (q <=? book_stock b) eqn:Hle; [|eauto].
    apply IH; [done|].
    apply Exists_cons in Hshort as [(b' & Hb' & Hlt)|Hshort]; [|done].
    simpl in *. simplify_eq. lia. }
  destruct (Hcheck rzero []) as [b Hb]. exists b.
  unfold checkout. rewrite Hcart. destruct c as [|line rest].
  { by apply Exists_nil in Hshort. }
  by rewrite Hb.
Qed.

(** C5, where the code leaves it: no checkout adds or removes a
    [low_stock] notification, whatever the stock of its books becomes;
    a sale that takes a book from above its threshold to below it is
    announced as a new order only. *)
Theorem checkout_emits_no_low_stock method form random_bytes db s r db' s' :
  checkout method form random_bytes db s = (r, db', s') →
  notifications_of_type "low_stock" db' = notifications_of_type "low_stock" db.
Proof.
  intros Hrun. destruct method.
  - unfold checkout in Hrun.
    destruct (cart s) as [[|[? ?] ?]|] eqn:Hcart;
      try destruct (checkout_display db _ [] rzero);
      by simplify_eq.
  - checkout_cases Hrun; try done.
    rewrite add_notification_other_type by done.
    apply checkout_write_spec in Hwrite as (_ & _ & _ & Hsame).
    unfold notifications_of_type. by rewrite Hsame.
Qed.

End CheckoutFrame.

(** ** Stock under checkouts served one after the other *)

Section SerialCheckouts.
Context {host : Host}.

Import AppEnhanced.

Lemma omap_cons_list {A B} (f : A → option B) (x : A) (l : list A) :
  omap f (x :: l)
  = match f x with Some y => y :: omap f l | None => omap f l end.
Proof. done. Qed.

Lemma fetch_book_rowid db book_id b :
  fetch_book db book_id = Some b →
  ∃ i, sql_rowid book_id = Some i ∧ books db !! i = Some b.
Proof.
  unfold fetch_book. destruct (sql_rowid book_id) as [i|]; [|done].
  simpl. eauto.
Qed.

(** One update of the stock of a row that has the quantity: no stock
    goes below zero, and the other rows are not touched. *)
Lemma update_stock_in_stock quantity book_id i b db :
  sql_rowid book_id = Some i → books db !! i = Some b →
  quantity ≤ book_stock b → stocks_nonneg db →
  stocks_nonneg (update_stock quantity book_id db)
  ∧ ∀ j, j ≠ i → books (update_stock quantity book_id db) !! j = books db !! j.
Proof.
  intros Hi Hb Hq Hdb. unfold update_stock. rewrite Hi. simpl. split.
  - intros j b'. simpl. rewrite lookup_alter. case_decide as Hij.
    + subst j. rewrite Hb. intros [= <-]. simpl. lia.
    + apply Hdb.
  - intros j Hj. by rewrite lookup_alter_ne.
Qed.

Lemma write_item_books oid db it :
  books (write_item oid db it) = books (update_stock (ci_quantity it) (ci_book_id it) db).
Proof.
  unfold write_item, update_stock. by destruct (sql_rowid (ci_book_id it)).
Qed.

(** The second loop of [checkout] on items that select different rows,
    each with its quantity in stock. *)
Lemma write_items_stocks oid its db :
  stocks_nonneg db →
  NoDup (omap (λ it, sql_rowid (ci_book_id it)) its) →
  Forall (λ it, ∃ b, fetch_book db (ci_book_id it) = Some b
                     ∧ ci_quantity it ≤ book_stock b) its →
  stocks_nonneg (foldl (write_item oid) db its).
Proof.
  revert db. induction its as [|it its IH]; intros db Hdb Hrows Hits; [done|].
  apply Forall_cons in Hits as [(b & Hb & Hq) Hits].
  apply fetch_book_rowid in Hb as (i & Hi & Hb).
  rewrite omap_cons_list, Hi in Hrows. apply NoDup_cons in Hrows as [Hfirst Hrows].
  destruct (update_stock_in_stock _ _ _ _ _ Hi Hb Hq Hdb) as [Hnonneg Hother].
  simpl. apply IH; [|done|].
  - unfold stocks_nonneg. by rewrite write_item_books.
  - rewrite Forall_forall in Hits. apply Forall_forall. intros it' Hin.
    destruct (Hits it' Hin) as (b' & Hb' & Hq').
    exists b'. split; [|done].
    apply fetch_book_rowid in Hb' as (j & Hj & Hb').
    unfold fetch_book. rewrite Hj. simpl. rewrite write_item_books.
    rewrite Hother; [done|]. intros ->. apply Hfirst.
    apply list_elem_of_omap. eauto.
Qed.

Lemma prepared_rows db lines its :
  Forall2 (prepared_from db) lines its →
  omap (λ it, sql_rowid (ci_book_id it)) its = cart_rows lines.
Proof.
  unfold cart_rows.
  induction 1 as [|line it lines its (Hkey & _ & _) _ IH]; [done|].
  rewrite !omap_cons_list, Hkey, IH. done.
Qed.

(** One checkout, served alone, oversells no book when its cart names
    no book twice. *)
Lemma checkout_keeps_stocks_nonneg method form random_bytes db s r db' s' :
  stocks_nonneg db → cart_rows_distinct s →
  checkout method form random_bytes db s = (r, db', s') →
  stocks_nonneg db'.
Proof.
  intros Hdb Hdistinct Hrun.
  destruct (placed r) eqn:Hplaced.
  2: { by rewrite (checkout_frame _ _ _ _ _ _ _ _ Hrun Hplaced). }
  destruct method.
  { unfold checkout in Hrun.
    destruct (cart s) as [[|[? ?] ?]|];
      try destruct (checkout_display db _ [] rzero); by simplify_eq. }
  checkout_cases Hrun; try done.
  apply checkout_check_passed in Hcheck as (new & Hits & Hnew & _).
  simpl in Hits. subst cart_items.
  unfold cart_rows_distinct in Hdistinct. rewrite Hcart in Hdistinct.
  simpl in Hdistinct.
  unfold checkout_write, insert_order in Hwrite.
  destruct (order_id_taken _ db); simpl in Hwrite; [done|].
  injection Hwrite as <-.
  unfold stocks_nonneg. simpl.
  apply write_items_stocks.
  - done.
  - by rewrite (prepared_rows _ _ _ Hnew).
  - clear -Hnew.
    induction Hnew as [|line it lines new (Hkey & Hqty & b & Hb & _ & Hq) _ IH];
      constructor; [|done].
    exists b. rewrite Hkey, Hqty. done.
Qed.

(** Served one after the other, each to its end, checkouts whose carts
    name no book twice leave every stock at zero or above. *)
Lemma serve_all_keeps_stocks_nonneg db requests :
  stocks_nonneg db →
  Forall (λ rq : checkout_form * Z * session, cart_rows_distinct rq.2) requests →
  stocks_nonneg (serve_all db requests).1.
Proof.
  revert db. induction requests as [|[[form random_bytes] s] rest IH];
    intros db Hdb Hall; [done|].
  apply Forall_cons in Hall as [Hs Hall]. simpl in Hs. simpl.
  destruct (checkout POST form random_bytes db s) as [[r db'] s'] eqn:Hrun.
  specialize (IH db' (checkout_keeps_stocks_nonneg _ _ _ _ _ _ _ _ Hdb Hs Hrun) Hall).
  by destruct (serve_all db' rest).
Qed.

(** The last copy: of two customers served one after the other, each
    with one copy of the same book in the cart, the first gets the
    order and the second the insufficient-stock message. *)
Lemma last_copy_goes_to_the_first form1 form2 draw1 draw2 db s1 s2 book_id i b :
  sql_rowid book_id = Some i → books db !! i = Some b → book_stock b = 1 →
  cart s1 = Some [(book_id, 1)] → cart s2 = Some [(book_id, 1)] →
  order_id_taken (new_order_id draw1) db = false →
  (serve_all db [(form1, draw1, s1); (form2, draw2, s2)]).2
  = [render_order_confirmation (new_order_id draw1)
       (radd rzero (rmul_int (book_price b) 1));
     redirect "view_cart"].
Proof.
  intros Hi Hb Hone Hs1 Hs2 Hfree.
  assert (fetch_book db book_id = Some b) as Hfetch.
  { unfold fetch_book. rewrite Hi. done. }
  unfold serve_all, checkout. rewrite Hs1.
  cbn [checkout_check]. rewrite Hfetch, Hone. cbn [Z.leb Z.compare Pos.compare Pos.compare_cont].
  unfold checkout_place, checkout_write, insert_order.
  cbn [order_order_id]. rewrite Hfree. cbn [mbind option_bind foldl app].
  rewrite Hs2.
  match goal with
  | |- context [checkout_check ?d _ _ _] =>
      assert (fetch_book d book_id = Some (set_stock 0 b)) as Hsold
  end.
  { unfold fetch_book. rewrite Hi.
    unfold add_notification, with_notifications, write_item, update_stock.
    cbn [ci_book_id]. rewrite Hi.
    cbn [books with_books insert_order_item mbind option_bind].
    rewrite lookup_alter_eq, Hb. cbn [ci_quantity fmap option_fmap option_map].
    by rewrite Hone. }
  cbn [checkout_check]. rewrite Hsold. done.
Qed.

(** C2, as the code has it: checkouts that are served one after the
    other, each to its end, with carts that name no book twice, leave
    every stock at zero or above; and of two such checkouts for one
    copy each of a book with one copy left, the first is placed and
    the second ends on insufficient stock.  The update itself is
    unconditional: what keeps the stock from going below zero is the
    read of the same request, as long as no other request writes in
    between. *)
Theorem serial_checkouts_never_oversell :
  (∀ db requests,
     stocks_nonneg db →
     Forall (λ rq : checkout_form * Z * session, cart_rows_distinct rq.2) requests →
     stocks_nonneg (serve_all db requests).1)
  ∧ (∀ form1 form2 draw1 draw2 db s1 s2 book_id i b,
     sql_rowid book_id = Some i → books db !! i = Some b → book_stock b = 1 →
     cart s1 = Some [(book_id, 1)] → cart s2 = Some [(book_id, 1)] →
     order_id_taken (new_order_id draw1) db = false →
     ∃ total,
       (serve_all db [(form1, draw1, s1); (form2, draw2, s2)]).2
       = [render_order_confirmation (new_order_id draw1) total;
          redirect "view_cart"]).
Proof.
  split.
  - apply serve_all_keeps_stocks_nonneg.
  - intros form1 form2 draw1 draw2 db s1 s2 book_id i b Hi Hb Hone Hs1 Hs2 Hfree.
    eexists.
    exact (last_copy_goes_to_the_first form1 form2 draw1 draw2 db s1 s2
             book_id i b Hi Hb Hone Hs1 Hs2 Hfree).
Qed.

(** A worker that takes both of its steps without another in between
    is the handler. *)
Lemma worker_alone_is_checkout form random_bytes db s :
  run_schedule [0; 0]%nat db [arrived form random_bytes s]
  = let '(r, db', s') := checkout POST form random_bytes db s in
    (db', [answered r s']).
Proof.
  unfold checkout. simpl.
  destruct (cart s) as [[|[k q] c]|]; try done.
  destruct (checkout_check db ((k, q) :: c) rzero []); simpl; try done.
  by destruct (checkout_place form random_bytes total cart_items db s) as [[? ?] ?].
Qed.

End SerialCheckouts.

(** ** The cart page *)

Section CartFacts.
Context {host : Host}.

Lemma view_cart_loop_raises db lines v :
  Exists (sold_out db) lines →
  ∃ v', AppEnhanced.view_cart_loop db lines v = inr v'.
Proof.
  revert v. induction lines as [|[k q] rest IH]; intros v Hbad.
  { by apply Exists_nil in Hbad. }
  simpl. destruct (fetch_book db k) as [b|] eqn:Hb.
  - destruct (Z.leb_spec q (book_stock b)) as [Hle|Hlt].
    + apply IH. apply Exists_cons in Hbad as [(b' & Hb' & Hlt & _)|Hbad]; [|done].
      simpl in *. simplify_eq. lia.
    + destruct (Z.ltb_spec 0 (book_stock b)) as [Hpos|Hzero]; [|eauto].
      apply IH. apply Exists_cons in Hbad as [(b' & Hb' & _ & Hzero)|Hbad]; [|done].
      simpl in *. simplify_eq. lia.
  - apply IH. apply Exists_cons in Hbad as [(b' & Hb' & _)|Hbad]; [|done].
    simpl in *. congruence.
Qed.

Lemma view_cart_loop_returns db lines v :
  ¬ Exists (sold_out db) lines →
  ∃ v', AppEnhanced.view_cart_loop db lines v = inl v'.
Proof.
  revert v. induction lines as [|[k q] rest IH]; intros v Hgood; [by eexists|].
  rewrite Exists_cons in Hgood. simpl.
  destruct (fetch_book db k) as [b|] eqn:Hb; [|apply IH; tauto].
  destruct (Z.leb_spec q (book_stock b)) as [Hle|Hlt]; [apply IH; tauto|].
  destruct (Z.ltb_spec 0 (book_stock b)) as [Hpos|Hzero]; [apply IH; tauto|].
  exfalso. apply Hgood. left. exists b. simpl. done.
Qed.

(** C8, where the code leaves it: as soon as one line of the cart names
    a book that is there with nothing in stock, [view_cart] ends with
    [RuntimeError] and shows no cart at all: the line is deleted from
    the dictionary the loop is iterating over. *)
Theorem view_cart_sold_out_line_raises db s c book_id quantity b :
  cart s = Some c →
  (book_id, quantity) ∈ c →
  fetch_book db book_id = Some b →
  book_stock b < quantity → book_stock b ≤ 0 →
  (AppEnhanced.view_cart db s).1 = unhandled RuntimeError.
Proof.
  intros Hcart Hin Hb Hlt Hzero.
  assert (Exists (sold_out db) c) as Hbad.
  { apply Exists_exists. exists (book_id, quantity). split; [done|].
    exists b. done. }
  unfold AppEnhanced.view_cart. rewrite Hcart.
  destruct c as [|line rest]; [by apply Exists_nil in Hbad|].
  destruct (view_cart_loop_raises db (line :: rest)
              {| AppEnhanced.view_live := line :: rest;
                 AppEnhanced.view_items := [];
                 AppEnhanced.view_total := rzero;
                 AppEnhanced.view_flashes := flashes s |} Hbad) as [v' ->].
  done.
Qed.

(** Without such a line the page is rendered. *)
Lemma view_cart_renders db s :
  ¬ Exists (sold_out db) (default [] (cart s)) →
  ∃ cart_items total, (AppEnhanced.view_cart db s).1 = render_cart cart_items total.
Proof.
  intros Hgood. unfold AppEnhanced.view_cart.
  destruct (cart s) as [[|line rest]|]; [by eauto| |by eauto].
  edestruct (view_cart_loop_returns db (line :: rest)) as [v' ->]; [done|].
  by eauto.
Qed.

(** A line within stock is shown with its quantity and
    [price * quantity]; a line above a stock that is not zero is shown
    with the stock, and the cart and the warnings say so. *)
Lemma view_cart_one_line db s book_id quantity b :
  cart s = Some [(book_id, quantity)] →
  fetch_book db book_id = Some b →
  0 < book_stock b →
  AppEnhanced.view_cart db s
  = if quantity <=? book_stock b then
      (render_cart [{| line_book := b; line_quantity := quantity;
                       line_total := rmul_int (book_price b) quantity |}]
         (radd rzero (rmul_int (book_price b) quantity)), s)
    else
      (render_cart [{| line_book := b; line_quantity := book_stock b;
                       line_total := rmul_int (book_price b) (book_stock b) |}]
         (radd rzero (rmul_int (book_price b) (book_stock b))),
       {| cart := Some [(book_id, book_stock b)];
          flashes := flashes s ++ [flash_quantity_adjusted (book_title b)] |}).
Proof.
  intros Hcart Hb Hpos. unfold AppEnhanced.view_cart. rewrite Hcart. simpl.
  rewrite Hb. destruct (quantity <=? book_stock b); simpl.
  - destruct s; simpl in *. by subst.
  - destruct (Z.ltb_spec 0 (book_stock b)); [|lia]. simpl.
    by rewrite String.eqb_refl.
Qed.

(** [app.py] shows the cart as it is: nothing is held against the
    stock, and neither the cart nor the flashes change. *)
Lemma app_view_cart_keeps_session db s : (App.view_cart db s).2 = s.
Proof.
  unfold App.view_cart. destruct (cart s) as [[|line rest]|]; try done.
  by destruct (App.view_cart_loop db (line :: rest) [] rzero).
Qed.

End CartFacts.

(** ** Adding and editing books *)

Section BookFormFacts.
Context {host : Host}.

Import App Admin.

(** The five spellings of the check are turned away before [float()]
    sees them, and nothing is written. *)
Lemma add_book_rejects_sentinels form db s :
  string_in (py_lower (py_strip (form_price form))) price_sentinels = true →
  add_book POST form db s
  = (render_template "admin/add_book.html", db, add_flash flash_invalid_price s).
Proof.
  intros Hin. unfold add_book, validate_book_form. by rewrite Hin.
Qed.

Lemma insert_book_row b db :
  risnan (book_price b) = false →
  ∃ db', insert_book b db = Some db'
         ∧ books db' !! next_rowid (books_seq db) (books db) = Some b
         ∧ books db !! next_rowid (books_seq db) (books db) = None.
Proof.
  intros Hnan. unfold insert_book. rewrite Hnan. eexists. split; [done|].
  simpl. rewrite lookup_insert_eq. split; [done|]. apply next_rowid_fresh.
Qed.

(** C4, where the code leaves it.  In [app.py] the price goes to
    [float()] unchecked, and whatever [float()] returns other than NaN
    is stored.  In [admin/routes.py] every spelling outside the five of
    the check that [float()] reads as a value that is not below zero
    and not NaN is stored as well. *)
Theorem nonfinite_price_can_be_stored :
  (∀ form db s price stock,
     py_float (form_price form) = Some price →
     risnan price = false →
     py_int (form_stock form) = Some stock →
     ∃ db', (admin_add_book POST form db s).1 = (redirect "admin_books", db')
       ∧ book_price <$> books db' !! next_rowid (books_seq db) (books db)
         = Some price
       ∧ books db !! next_rowid (books_seq db) (books db) = None)
  ∧ (∀ form db s price stock threshold,
     string_in (py_lower (py_strip (form_price form))) price_sentinels = false →
     py_float (py_strip (form_price form)) = Some price →
     rlt0 price = false → risnan price = false →
     py_int (form_stock form) = Some stock → 0 ≤ stock →
     py_int (default "5"%string (form_stock_threshold form)) = Some threshold →
     0 ≤ threshold →
     ∃ db', (add_book POST form db s).1 = (redirect "admin.books", db')
       ∧ book_price <$> books db' !! next_rowid (books_seq db) (books db)
         = Some price
       ∧ books db !! next_rowid (books_seq db) (books db) = None).
Proof.
  split.
  - intros form db s price stock Hprice Hnan Hstock.
    unfold admin_add_book. rewrite Hprice, Hstock.
    edestruct insert_book_row as (db' & -> & Hrow & Hfresh); [exact Hnan|].
    exists db'. simpl in Hrow. rewrite Hrow. done.
  - intros form db s price stock threshold Hlist Hprice Hneg Hnan Hstock Hs Hthr Ht.
    unfold add_book, validate_book_form.
    rewrite Hlist, Hprice, Hneg, Hstock, Hthr.
    destruct (Z.ltb_spec stock 0); [lia|].
    destruct (Z.ltb_spec threshold 0); [lia|].
    edestruct insert_book_row as (db' & -> & Hrow & Hfresh); [exact Hnan|].
    eexists. split; [done|]. simpl in *. rewrite Hrow. done.
Qed.

(** [edit_book] announces low stock exactly when the edit takes the
    stock from above the threshold to the threshold or below. *)
Lemma edit_book_low_stock_alert book_id form db s b v :
  books db !! book_id = Some b →
  validate_book_form form = inr v →
  notifications_of_type "low_stock" (edit_book POST book_id form db s).1.2
  = if (valid_stock v <=? valid_threshold v) && (valid_threshold v <? book_stock b)
    then <[next_rowid (notifications_seq db) (notifications db) :=
             {| notif_type := "low_stock"; notif_title := "Low Stock Alert";
                notif_message := msg_low_stock (form_title form) (valid_stock v);
                notif_is_read := false |}]>
           (notifications_of_type "low_stock" db)
    else notifications_of_type "low_stock" db.
Proof.
  intros Hb Hv. unfold edit_book. rewrite Hb, Hv.
  unfold update_book. cbn [book_price].
  destruct ((valid_stock v <=? valid_threshold v)
            && (valid_threshold v <? book_stock b));
    destruct (risnan (valid_price v)); try done;
    unfold notifications_of_type, add_notification, with_notifications, with_books;
    cbn [fst snd notifications];
    by rewrite map_filter_insert_True by done.
Qed.

End BookFormFacts.

(** ** The properties at work on the sample store *)

Section Samples.
Import Double Examples.

(** Two copies of The Great Gatsby out of six: the order is for
    2 * 12.99, and its one line carries the price of the book. *)
Lemma checkout_total_is_sum_of_items_witness :
  let run := AppEnhanced.checkout POST (customer "Ann") draw_a (store 6 1)
               (basket [("1"%string, 2)]) in
  run.1.1 = render_order_confirmation "54E716AE" 25.98%float
  ∧ ∃ o, orders run.1.2 = orders (store 6 1) ++ [o]
         ∧ order_order_id o = "54E716AE"%string
         ∧ order_total_amount o = 25.98%float
         ∧ order_total_amount o = sum_of_items (items_of_order "54E716AE" run.1.2)
         ∧ order_items run.1.2
           = order_items (store 6 1) ++ items_of_order "54E716AE" run.1.2
         ∧ Forall (λ it, ∃ b, fetch_book (store 6 1) (item_book_id it) = Some b
                              ∧ item_price it = book_price b)
             (items_of_order "54E716AE" run.1.2).
Proof.
  intros run. split; [reflexivity|].
  apply (checkout_total_is_sum_of_items (customer "Ann") draw_a (store 6 1)
           (basket [("1"%string, 2)]) "54E716AE" 25.98%float run.1.2 run.2).
  - constructor.
  - reflexivity.
Defined.

(** Ann's order again, for its identifier: eight hex digits, and free
    before. *)
Lemma order_id_is_eight_hex_digits_witness :
  let run := AppEnhanced.checkout POST (customer "Ann") draw_a (store 6 1)
               (basket [("1"%string, 2)]) in
  new_order_id draw_a = "54E716AE"%string
  ∧ String.length (new_order_id draw_a) = 8%nat
  ∧ order_id_taken (new_order_id draw_a) (store 6 1) = false.
Proof.
  intros run.
  destruct (order_id_is_eight_hex_digits (customer "Ann") draw_a (store 6 1)
              (basket [("1"%string, 2)]) run.1.1 run.1.2 run.2 eq_refl)
    as (Hlen & _ & _ & _ & _ & Hfree).
  split; [reflexivity|]. split; [exact Hlen|].
  exact (proj1 (Hfree eq_refl)).
Defined.

(** Two copies of the history book when one is left: the checkout ends
    on insufficient stock, with the cart and the store as they were. *)
Lemma checkout_cart_kept_until_commit_witness :
  let s := basket [("7"%string, 2)] in
  let run := AppEnhanced.checkout POST (customer "Ann") draw_a (store 6 1) s in
  run.1.1 = redirect "view_cart"
  ∧ run.1.2 = store 6 1 ∧ cart run.2 = cart s
  ∧ ∃ b, run.2 = add_flash (flash_insufficient_stock (book_title b) (book_stock b)) s.
Proof.
  intros s run. split; [reflexivity|].
  apply (proj1 (checkout_cart_kept_until_commit POST (customer "Ann") draw_a
                  (store 6 1) s run.1.1 run.1.2 run.2 eq_refl)).
  reflexivity.
Defined.

(** A cart with a book that is no longer in the store. *)
Lemma checkout_absent_book_raises_witness :
  fetch_book (store 6 1) "999" = None
  ∧ AppEnhanced.checkout POST (customer "Ann") draw_a (store 6 1)
      (basket [("1"%string, 1); ("999"%string, 1)])
    = (unhandled TypeError, store 6 1, basket [("1"%string, 1); ("999"%string, 1)]).
Proof.
  split; [reflexivity|].
  apply (checkout_absent_book_raises (customer "Ann") draw_a (store 6 1)
           (basket [("1"%string, 1); ("999"%string, 1)])
           [("1"%string, 1)] "999" 1 []).
  - reflexivity.
  - constructor; [|constructor]. exists (gatsby 6). split; [reflexivity|]. simpl. lia.
  - reflexivity.
Defined.

(** Threshold 5, stock 6, a sale of two: the stock is 4 and the only
    notification is the one for the order. *)
Lemma checkout_emits_no_low_stock_witness :
  let run := AppEnhanced.checkout POST (customer "Ann") draw_a (store 6 1)
               (basket [("1"%string, 2)]) in
  placed run.1.1 = true
  ∧ book_stock <$> books (store 6 1) !! 1 = Some 6
  ∧ book_stock_threshold <$> books run.1.2 !! 1 = Some 5
  ∧ book_stock <$> books run.1.2 !! 1 = Some 4
  ∧ notifications_of_type "low_stock" run.1.2
    = notifications_of_type "low_stock" (store 6 1).
Proof.
  intros run. do 4 (split; [reflexivity|]).
  apply (checkout_emits_no_low_stock POST (customer "Ann") draw_a (store 6 1)
           (basket [("1"%string, 2)]) run.1.1 run.1.2 run.2 eq_refl).
Defined.

(** One copy left and two customers, one after the other: the first
    order is placed, the second customer is told that the stock is
    insufficient, and the stock ends at zero. *)
Lemma serial_checkouts_never_oversell_witness :
  let requests := [(customer "Ann", draw_a, basket [("7"%string, 1)]);
                   (customer "Bob", draw_b, basket [("7"%string, 1)])] in
  let run := AppEnhanced.serve_all (store 6 1) requests in
  run.2 = [render_order_confirmation "54E716AE" 39.99%float; redirect "view_cart"]
  ∧ book_stock <$> books run.1 !! 7 = Some 0
  ∧ stocks_nonneg run.1.
Proof.
  intros requests run.
  destruct (serial_checkouts_never_oversell (host := Double.host))
    as [Hkeeps Hlast].
  split.
  { destruct (Hlast (customer "Ann") (customer "Bob") draw_a draw_b (store 6 1)
                (basket [("7"%string, 1)]) (basket [("7"%string, 1)])
                "7"%string 7 (history_book 1)) as [total Hrun];
      reflexivity. }
  split; [reflexivity|].
  apply (Hkeeps (store 6 1) requests).
  - intros i b. unfold store. simpl.
    rewrite lookup_insert. case_decide; [intros [= <-]; simpl; lia|].
    rewrite lookup_insert. case_decide; [intros [= <-]; simpl; lia|].
    by rewrite lookup_empty.
  - repeat (apply Forall_cons; split; [change (NoDup [7]); apply NoDup_singleton|]).
    apply Forall_nil_2.
Defined.

(** C2, as the specification has it, fails: with one copy left, the
    schedule on which both requests read before either writes places
    both orders and leaves the stock at -1. *)
Lemma interleaved_checkouts_oversell :
  let workers := [AppEnhanced.arrived (customer "Ann") draw_a (basket [("7"%string, 1)]);
                  AppEnhanced.arrived (customer "Bob") draw_b (basket [("7"%string, 1)])] in
  let run := AppEnhanced.run_schedule [0; 1; 0; 1]%nat (store 6 1) workers in
  book_stock <$> books (store 6 1) !! 7 = Some 1
  ∧ run.2 = [AppEnhanced.answered
               (render_order_confirmation "54E716AE" 39.99%float)
               {| cart := None; flashes := [flash_order_placed "54E716AE"] |};
             AppEnhanced.answered
               (render_order_confirmation "0A1B2C3D" 39.99%float)
               {| cart := None; flashes := [flash_order_placed "0A1B2C3D"] |}]
  ∧ book_stock <$> books run.1 !! 7 = Some (-1)
  ∧ ¬ stocks_nonneg run.1.
Proof.
  intros workers run.
  assert (book_stock <$> books run.1 !! 7 = Some (-1)) as Hstock by reflexivity.
  repeat split; try reflexivity.
  intros Hnonneg.
  destruct (books run.1 !! 7) as [b|] eqn:Hb; [|done].
  specialize (Hnonneg 7 b Hb). simpl in Hstock, Hnonneg.
  injection Hstock as Hstock. lia.
Qed.

(** Why the carts above name no book twice: the cart is keyed by the
    posted text, and ["7"] and ["07"] select the same row.  Each line
    passes against the one copy, and both are written. *)
Lemma aliased_lines_oversell :
  let run := AppEnhanced.checkout POST (customer "Ann") draw_a (store 6 1)
               (basket [("7"%string, 1); ("07"%string, 1)]) in
  placed run.1.1 = true ∧ book_stock <$> books run.1.2 !! 7 = Some (-1).
Proof. split; reflexivity. Qed.

(** The history book is sold out and the cart still asks for one. *)
Lemma view_cart_sold_out_line_raises_witness :
  (AppEnhanced.view_cart (store 6 0)
     (basket [("1"%string, 2); ("7"%string, 1)])).1
  = unhandled RuntimeError.
Proof.
  apply (view_cart_sold_out_line_raises (store 6 0)
           (basket [("1"%string, 2); ("7"%string, 1)])
           [("1"%string, 2); ("7"%string, 1)] "7" 1 (history_book 0)).
  - reflexivity.
  - apply list_elem_of_In. right. left. reflexivity.
  - reflexivity.
  - simpl. lia.
  - simpl. lia.
Defined.

(** ["inf"] through [app.py] and ["+inf"] through [admin/routes.py]:
    both books are stored with an infinite price. *)
Lemma nonfinite_price_can_be_stored_witness :
  (∃ db', (App.admin_add_book POST (new_book "inf") (store 6 1) (basket [])).1
          = (redirect "admin_books", db')
          ∧ book_price <$> books db' !! 11 = Some infinity
          ∧ books (store 6 1) !! 11 = None)
  ∧ (∃ db', (Admin.add_book POST (new_book "+inf") (store 6 1) (basket [])).1
            = (redirect "admin.books", db')
            ∧ book_price <$> books db' !! 11 = Some infinity
            ∧ books (store 6 1) !! 11 = None).
Proof.
  destruct (nonfinite_price_can_be_stored (host := Double.host)) as [Happ Hadmin].
  split.
  - apply (Happ (new_book "inf") (store 6 1) (basket []) infinity 3);
      reflexivity.
  - apply (Hadmin (new_book "+inf") (store 6 1) (basket []) infinity 3 5);
      first [reflexivity | simpl; lia].
Defined.

End Samples.

(** * Further properties of the handlers *)

(** ** The cart routes *)

Section CartRoutes.
Context {host : Host}.

Import AppEnhanced.

Lemma dict_get_set {V} (k k' : string) (v : V) (d : dict V) :
  dict_get k' (dict_set k v d) = if decide (k' = k) then Some v else dict_get k' d.
Proof.
  induction d as [|[k0 v0] d IH]; simpl.
  - case_decide as Hk; [subst; by rewrite String.eqb_refl|].
    by apply String.eqb_neq in Hk as ->.
  - destruct (String.eqb_spec k k0) as [->|Hk0]; simpl.
    + case_decide as Hk; [subst; by rewrite String.eqb_refl|].
      by apply String.eqb_neq in Hk as ->.
    + rewrite IH. destruct (String.eqb_spec k' k0) as [->|Hk'0]; [|done].
      by rewrite decide_False by congruence.
Qed.

Lemma dict_get_None_keys {V} (k : string) (d : dict V) :
  dict_get k d = None ↔ k ∉ d.*1.
Proof.
  induction d as [|[k0 v0] d IH]; simpl.
  - split; [intros _; apply not_elem_of_nil|done].
  - rewrite not_elem_of_cons. destruct (String.eqb_spec k k0) as [->|Hk0].
    + split; [done|]. intros [? _]. done.
    + rewrite IH. tauto.
Qed.

Lemma dict_get_del {V} (k k' : string) (d : dict V) :
  is_dict d →
  dict_get k' (dict_del k d) = if decide (k' = k) then None else dict_get k' d.
Proof.
  unfold is_dict. induction d as [|[k0 v0] d IH]; simpl; intros Hd.
  - by case_decide.
  - apply NoDup_cons in Hd as [Hfresh Hd].
    destruct (String.eqb_spec k k0) as [->|Hk0]; simpl.
    + case_decide as Hk; [subst; by apply dict_get_None_keys|].
      by apply String.eqb_neq in Hk as ->.
    + rewrite IH by done. destruct (String.eqb_spec k' k0) as [->|Hk'0]; [|done].
      by rewrite decide_False by congruence.
Qed.

Lemma dict_set_keys {V} (k : string) (v : V) (d : dict V) :
  (dict_set k v d).*1 = if dict_has k d then d.*1 else d.*1 ++ [k].
Proof.
  unfold dict_has. induction d as [|[k0 v0] d IH]; [done|].
  cbn [dict_set dict_get].
  destruct (String.eqb_spec k k0) as [->|Hk0]; [done|].
  rewrite !fmap_cons, IH. by destruct (dict_get k d).
Qed.

Lemma dict_set_is_dict {V} (k : string) (v : V) (d : dict V) :
  is_dict d → is_dict (dict_set k v d).
Proof.
  unfold is_dict. intros Hd. rewrite dict_set_keys. unfold dict_has.
  destruct (dict_get k d) eqn:Hk; [done|].
  apply NoDup_app. split; [done|]. split; [|apply NoDup_singleton].
  intros k' Hin ->%list_elem_of_singleton. by apply dict_get_None_keys in Hk.
Qed.

Lemma dict_del_is_dict {V} (k : string) (d : dict V) :
  is_dict d → is_dict (dict_del k d).
Proof.
  unfold is_dict. induction d as [|[k0 v0] d IH]; simpl; intros Hd; [done|].
  apply NoDup_cons in Hd as [Hfresh Hd].
  destruct (String.eqb_spec k k0) as [->|Hk0]; simpl; [done|].
  apply NoDup_cons. split; [|by apply IH].
  intros Hin. apply Hfresh. clear -Hin.
  induction d as [|[k1 v1] d IH]; simpl in *; [done|].
  destruct (String.eqb k k1); simpl in *; [by right|].
  apply elem_of_cons in Hin as [->|Hin]; [by left|right; by apply IH].
Qed.

Lemma sum_values_from (a : Z) (d : dict Z) :
  foldl (λ acc kv, acc + kv.2) a d = a + foldl (λ acc kv, acc + kv.2) 0 d.
Proof.
  revert a. induction d as [|[k v] d IH]; intros a; simpl; [lia|].
  rewrite (IH (a + v)), (IH (0 + v)). lia.
Qed.

Lemma sum_values_set (k : string) (v : Z) (d : dict Z) :
  foldl (λ acc kv, acc + kv.2) 0 (dict_set k v d)
  = foldl (λ acc kv, acc + kv.2) 0 d + v - default 0 (dict_get k d).
Proof.
  induction d as [|[k0 v0] d IH]; simpl; [lia|].
  destruct (String.eqb_spec k k0) as [->|Hk0]; simpl.
  - rewrite (sum_values_from (0 + v)), (sum_values_from (0 + v0)). lia.
  - rewrite (sum_values_from (0 + v0)), IH.
    rewrite (sum_values_from (0 + v0) d). lia.
Qed.

(** X1: [add_to_cart] merges by adding, for any quantity, also zero and
    below: afterwards the line of the book holds what it held before
    (nothing, for a new line) plus the quantity, every other line is
    as it was, and the cart count has grown by the quantity. *)
Theorem add_to_cart_merges book_id quantity s :
  let s' := add_to_cart book_id quantity s in
  let before := default [] (cart s) in
  let after := default [] (cart s') in
  (∀ k, dict_get k after
        = if decide (k = book_id)
          then Some (default 0 (dict_get book_id before) + quantity)
          else dict_get k before)
  ∧ api_cart_count s' = api_cart_count s + quantity
  ∧ (is_dict before → is_dict after).
Proof.
  intros s' before after. subst s' after. unfold add_to_cart, api_cart_count.
  fold before. simpl.
  destruct (dict_get book_id before) as [q|] eqn:Hq; simpl.
  - split; [intros k; by rewrite dict_get_set|].
    split; [rewrite sum_values_set, Hq; simpl; lia|apply dict_set_is_dict].
  - split; [intros k; by rewrite dict_get_set|].
    split; [rewrite sum_values_set, Hq; simpl; lia|apply dict_set_is_dict].
Qed.

(** X2: [update_cart] never adds a line.  For a book that is in the
    cart it sets the quantity when the quantity is above zero and
    removes the line otherwise; every other line is as it was. *)
Theorem update_cart_lookup book_id quantity s c k :
  cart s = Some c → is_dict c →
  dict_get k (default [] (cart (update_cart book_id quantity s)))
  = if decide (k = book_id)
    then (if dict_has book_id c
          then (if 0 <? quantity then Some quantity else None)
          else None)
    else dict_get k c.
Proof.
  intros Hcart Hdict. unfold update_cart. rewrite Hcart. unfold dict_has.
  destruct (dict_get book_id c) as [q|] eqn:Hq.
  - destruct (0 <? quantity); simpl.
    + by rewrite dict_get_set.
    + by rewrite dict_get_del.
  - simpl. rewrite Hcart. simpl. case_decide; [by subst|done].
Qed.

(** X3: [remove_from_cart] takes the line of the book out of the cart
    and leaves every other line; for a book that is not in the cart
    the session stays as it was, without a message. *)
Theorem remove_from_cart_lookup book_id s c :
  cart s = Some c → is_dict c →
  (∀ k, dict_get k (default [] (cart (remove_from_cart book_id s)))
        = if decide (k = book_id) then None else dict_get k c)
  ∧ (dict_has book_id c = false → remove_from_cart book_id s = s)
  ∧ api_cart_count (remove_from_cart book_id s)
    = api_cart_count s - default 0 (dict_get book_id c).
Proof.
  intros Hcart Hdict. unfold remove_from_cart, api_cart_count. rewrite Hcart.
  unfold dict_has.
  destruct (dict_get book_id c) as [q|] eqn:Hq; simpl.
  - split; [intros k; by rewrite dict_get_del|]. split; [done|].
    clear Hcart Hdict. induction c as [|[k0 v0] c IH]; simpl in *; [done|].
    destruct (String.eqb_spec book_id k0) as [->|Hk0]; simpl.
    + injection Hq as ->. rewrite (sum_values_from (0 + q)). lia.
    + rewrite (sum_values_from (0 + v0)), IH by done.
      rewrite (sum_values_from (0 + v0) c). lia.
  - rewrite Hcart. simpl. split; [|split; [done|lia]].
    intros k. case_decide; [by subst|done].
Qed.

End CartRoutes.

(** ** The cart page, line by line *)

Section CartPage.
Context {host : Host}.

Import AppEnhanced.

Lemma dict_set_middle {V} (k : string) (v q : V) (done rest : dict V) :
  k ∉ done.*1 →
  dict_set k v (done ++ (k, q) :: rest) = done ++ (k, v) :: rest.
Proof.
  induction done as [|[k0 v0] done IH]; simpl; intros Hk.
  - by rewrite String.eqb_refl.
  - apply not_elem_of_cons in Hk as [Hne Hk].
    apply String.eqb_neq in Hne as ->. by rewrite IH.
Qed.

Lemma sold_out_cons db line lines :
  ¬ Exists (sold_out db) (line :: lines) →
  ¬ sold_out db line ∧ ¬ Exists (sold_out db) lines.
Proof. rewrite Exists_cons. tauto. Qed.

(** The loop of [view_cart] on a cart without a sold-out line: the
    lines already seen are [done], and every line to come is cut down
    to the stock in its place. *)
Lemma view_cart_loop_spec db lines done v :
  view_live v = done ++ lines → is_dict (done ++ lines) →
  ¬ Exists (sold_out db) lines →
  view_cart_loop db lines v
  = inl {| view_live := done ++ (clamp_line db <$> lines);
           view_items := view_items v ++ omap (shown_line db) lines;
           view_total := sum_of_lines (view_total v) (omap (shown_line db) lines);
           view_flashes := view_flashes v ++ omap (adjusted_warning db) lines |}.
Proof.
  revert done v. induction lines as [|[k q] rest IH]; intros done v Hlive Hdict Hgood.
  { rewrite app_nil_r in Hlive. unfold sum_of_lines. cbn.
    rewrite !app_nil_r. destruct v; simpl in *. by subst. }
  apply sold_out_cons in Hgood as [Hline Hgood].
  rewrite !omap_cons_list, fmap_cons.
  unfold clamp_line, shown_line, adjusted_warning, sum_of_lines in *.
  cbn [view_cart_loop fst snd].
  destruct (fetch_book db k) as [b|] eqn:Hb; cbn [mbind option_bind].
  - destruct (Z.leb_spec q (book_stock b)) as [Hle|Hlt].
    + rewrite (IH (done ++ [(k, q)])); cbn [view_live view_items view_total view_flashes].
      * rewrite Z.min_l by lia. rewrite <- !app_assoc. done.
      * by rewrite <- app_assoc.
      * by rewrite <- app_assoc.
      * done.
    + destruct (Z.ltb_spec 0 (book_stock b)) as [Hpos|Hzero].
      2: { exfalso. apply Hline. exists b. simpl. done. }
      assert (k ∉ done.*1) as Hfresh.
      { unfold is_dict in Hdict. rewrite fmap_app, fmap_cons in Hdict.
        apply NoDup_app in Hdict as (_ & Hdisj & Hrest).
        intros Hin. apply (Hdisj k Hin). by left. }
      rewrite (IH (done ++ [(k, book_stock b)]));
        cbn [view_live view_items view_total view_flashes].
      * rewrite Z.min_r by lia. rewrite <- !app_assoc. done.
      * rewrite Hlive, dict_set_middle by done. by rewrite <- app_assoc.
      * unfold is_dict in *. rewrite <- app_assoc.
        by rewrite fmap_app, fmap_cons in *.
      * done.
  - rewrite (IH (done ++ [(k, q)])).
    + rewrite <- !app_assoc. done.
    + by rewrite <- app_assoc.
    + by rewrite <- app_assoc.
    + done.
Qed.

Lemma view_cart_spec db s c :
  cart s = Some c → is_dict c → ¬ Exists (sold_out db) c →
  view_cart db s
  = (render_cart (omap (shown_line db) c)
       (sum_of_lines rzero (omap (shown_line db) c)),
     {| cart := Some (clamp_line db <$> c);
        flashes := flashes s ++ omap (adjusted_warning db) c |}).
Proof.
  intros Hcart Hdict Hgood. unfold view_cart. rewrite Hcart.
  destruct c as [|line rest].
  { simpl. rewrite app_nil_r. destruct s; simpl in *. by subst. }
  by rewrite (view_cart_loop_spec db (line :: rest) []).
Qed.

(** A page was rendered: no line was sold out. *)
Lemma rendered_no_sold_out db s c r s1 :
  cart s = Some c → view_cart db s = (r, s1) → r ≠ unhandled RuntimeError →
  ¬ Exists (sold_out db) c.
Proof.
  intros Hcart Hview Hr Hbad. unfold view_cart in Hview. rewrite Hcart in Hview.
  destruct c as [|line rest]; [by apply Exists_nil in Hbad|].
  edestruct (view_cart_loop_raises db (line :: rest)) as [v' Hraise]; [done|].
  rewrite Hraise in Hview. by simplify_eq.
Qed.

Lemma clamp_line_facts db line :
  (clamp_line db line).1 = line.1
  ∧ clamp_line db (clamp_line db line) = clamp_line db line
  ∧ shown_line db (clamp_line db line) = shown_line db line
  ∧ adjusted_warning db (clamp_line db line) = None
  ∧ ¬ sold_out db (clamp_line db line).
Proof.
  destruct line as [k q].
  unfold clamp_line, shown_line, adjusted_warning, sold_out. simpl.
  destruct (fetch_book db k) as [b|] eqn:Hb; simpl; rewrite Hb; simpl.
  - rewrite Z.min_l by lia.
    destruct (Z.leb_spec (Z.min q (book_stock b)) (book_stock b)); [|lia].
    repeat split; try done. intros (b' & [= <-] & Hlt & _). lia.
  - repeat split; try done. by intros (b' & [=] & _).
Qed.

(** X4: what [view_cart] renders adds up.  The total is the sum of the
    line totals in the order shown, every line total is the book's
    price times the quantity shown, and no quantity shown is above the
    stock of its book. *)
Theorem view_cart_page_adds_up db s cart_items total :
  (view_cart db s).1 = render_cart cart_items total →
  total = sum_of_lines rzero cart_items
  ∧ Forall (λ l, line_total l = rmul_int (book_price (line_book l)) (line_quantity l)
                 ∧ line_quantity l ≤ book_stock (line_book l)) cart_items.
Proof.
  assert (∀ lines v v',
            view_cart_loop db lines v = inl v' →
            ∃ new, view_items v' = view_items v ++ new
                   ∧ view_total v' = sum_of_lines (view_total v) new
                   ∧ Forall (λ l, line_total l
                                  = rmul_int (book_price (line_book l)) (line_quantity l)
                                  ∧ line_quantity l ≤ book_stock (line_book l)) new)
    as Hloop.
  { induction lines as [|[k q] rest IH]; intros v v' Hrun; simpl in Hrun.
    { injection Hrun as <-. exists []. by rewrite app_nil_r. }
    destruct (fetch_book db k) as [b|]; [|by apply IH].
    destruct (Z.leb_spec q (book_stock b)) as [Hle|Hlt].
    - apply IH in Hrun as (new & Hitems & Htotal & Hall). simpl in *.
      eexists (_ :: new). rewrite Hitems, Htotal, <- app_assoc.
      split; [done|]. split; [done|]. constructor; [|done]. simpl. done.
    - destruct (Z.ltb_spec 0 (book_stock b)) as [Hpos|Hzero]; [|done].
      apply IH in Hrun as (new & Hitems & Htotal & Hall). simpl in *.
      eexists (_ :: new). rewrite Hitems, Htotal, <- app_assoc.
      split; [done|]. split; [done|]. constructor; [|done]. simpl. split; [done|lia]. }
  unfold view_cart. destruct (cart s) as [[|line rest]|].
  - simpl. intros [= <- <-]. done.
  - match goal with
    | |- context [view_cart_loop ?d ?l ?v] =>
        destruct (view_cart_loop d l v) as [v'|v'] eqn:Hrun
    end; [|done].
    apply Hloop in Hrun as (new & Hitems & Htotal & Hall). simpl in *.
    intros [= <- <-]. by rewrite Hitems, Htotal.
  - simpl. intros [= <- <-]. done.
Qed.



(** X6: looking at the cart again changes nothing.  Once the page has
    been rendered, rendering it again against the same stock shows the
    same lines and total, leaves the cart as the first look left it
    and adds no warning. *)
Theorem view_cart_again_is_quiet db s c cart_items total s1 :
  cart s = Some c → is_dict c →
  view_cart db s = (render_cart cart_items total, s1) →
  view_cart db s1 = (render_cart cart_items total, s1).
Proof.
  intros Hcart Hdict Hview.
  assert (¬ Exists (sold_out db) c) as Hgood.
  { by apply (rendered_no_sold_out db s c _ s1 Hcart Hview). }
  rewrite (view_cart_spec db s c Hcart Hdict Hgood) in Hview.
  injection Hview as <- <- <-.
  assert (clamp_line db <$> (clamp_line db <$> c) = clamp_line db <$> c) as Hclamp.
  { rewrite <- list_fmap_compose. apply list_fmap_ext. intros _ line _.
    apply clamp_line_facts. }
  assert (omap (shown_line db) (clamp_line db <$> c) = omap (shown_line db) c)
    as Hshown.
  { clear. induction c as [|line c IH]; [done|].
    rewrite fmap_cons, !omap_cons_list, IH.
    by rewrite (proj1 (proj2 (proj2 (clamp_line_facts db line)))). }
  assert (omap (adjusted_warning db) (clamp_line db <$> c) = []) as Hwarn.
  { clear. induction c as [|line c IH]; [done|].
    rewrite fmap_cons, omap_cons_list, IH.
    by rewrite (proj1 (proj2 (proj2 (proj2 (clamp_line_facts db line))))). }
  rewrite (view_cart_spec db _ (clamp_line db <$> c)); cbn [cart flashes].
  - by rewrite Hclamp, Hshown, Hwarn, app_nil_r.
  - done.
  - unfold is_dict in *. rewrite <- list_fmap_compose.
    erewrite list_fmap_ext; [exact Hdict|]. intros _ l _. simpl.
    apply clamp_line_facts.
  - rewrite Exists_fmap. rewrite Exists_exists. intros (l & _ & Hbad).
    by apply (clamp_line_facts db l) in Hbad.
Qed.

End CartPage.

(** ** Checkout: the stock, the orders and the unread count *)

Section CheckoutEffects.
Context {host : Host}.

Import AppEnhanced.

Lemma prepared_lines db lines its :
  Forall2 (prepared_from db) lines its →
  (λ it, (ci_book_id it, ci_quantity it)) <$> its = lines.
Proof.
  induction 1 as [|[k q] it lines its (Hkey & Hqty & _) _ IH]; [done|].
  rewrite fmap_cons, IH. simpl in *. by rewrite Hkey, Hqty.
Qed.

(** The second loop of [checkout], row by row: the stock of a row goes
    down by what the items ask of it, all items together. *)
Lemma write_items_books_effect oid its db i :
  books (foldl (write_item oid) db its) !! i
  = (λ b, set_stock
            (book_stock b
             - ordered_quantity ((λ it, (ci_book_id it, ci_quantity it)) <$> its) i) b)
    <$> books db !! i.
Proof.
  revert db. induction its as [|it its IH]; intros db.
  { simpl. destruct (books db !! i) as [b|]; [|done]. simpl. f_equal.
    destruct b; unfold set_stock; simpl. f_equal. lia. }
  cbn [foldl]. rewrite IH, write_item_books, fmap_cons.
  unfold update_stock, ordered_quantity. cbn [foldr fst snd].
  destruct (sql_rowid (ci_book_id it)) as [j|] eqn:Hj; [|by rewrite decide_False].
  cbn [books with_books]. rewrite lookup_alter.
  destruct (decide (j = i)) as [->|Hne].
  - rewrite decide_True by done.
    destruct (books db !! i) as [b|]; [|done]. simpl. f_equal.
    unfold set_stock. simpl. f_equal. lia.
  - rewrite decide_False by congruence. done.
Qed.

(** A placed order, row by row. *)
Lemma checkout_books_effect form random_bytes db s c r db' s' i :
  checkout POST form random_bytes db s = (r, db', s') →
  placed r = true → cart s = Some c →
  books db' !! i
  = (λ b, set_stock (book_stock b - ordered_quantity c i) b) <$> books db !! i.
Proof.
  intros Hrun Hplaced Hc. checkout_cases Hrun; try done.
  apply checkout_check_passed in Hcheck as (new & Hits & Hnew & _).
  simpl in Hits. subst cart_items.
  unfold checkout_write, insert_order in Hwrite.
  destruct (order_id_taken _ db); simpl in Hwrite; [done|].
  injection Hwrite as <-.
  cbn [books add_notification with_notifications].
  rewrite write_items_books_effect. cbn [books].
  by rewrite (prepared_lines _ _ _ Hnew).
Qed.

(** X7: what a placed order does to the books.  Every book is still
    there with its title, price and threshold; its stock has gone down
    by exactly what the lines of the cart that select it ask for, all
    together, and by nothing when no line selects it.  No book appears
    or disappears. *)
Theorem checkout_takes_exactly_the_order form random_bytes db s c r db' s' :
  checkout POST form random_bytes db s = (r, db', s') →
  placed r = true → cart s = Some c →
  ∀ i,
    (books db' !! i = None ↔ books db !! i = None)
    ∧ ∀ b, books db !! i = Some b →
        ∃ b', books db' !! i = Some b'
              ∧ book_stock b' = book_stock b - ordered_quantity c i
              ∧ book_title b' = book_title b ∧ book_price b' = book_price b
              ∧ book_stock_threshold b' = book_stock_threshold b.
Proof.
  intros Hrun Hplaced Hc i.
  rewrite (checkout_books_effect _ _ _ _ _ _ _ _ i Hrun Hplaced Hc).
  split.
  - by rewrite fmap_None.
  - intros b ->. eexists. split; [done|]. done.
Qed.

(** X8: what a sale does to the inventory page.  A book that a placed
    order leaves with stock above zero and at or below its threshold is
    among the low-stock alerts; a book it leaves with no stock is among
    the out-of-stock books and off the storefront's list. *)
Theorem sale_shows_on_the_inventory_page form random_bytes db s c r db' s' i b :
  checkout POST form random_bytes db s = (r, db', s') →
  placed r = true → cart s = Some c →
  books db !! i = Some b →
  let left := book_stock b - ordered_quantity c i in
  (0 < left ≤ book_stock_threshold b →
     Analytics.get_low_stock_alerts db' !! i = Some (set_stock left b)
     ∧ index db' !! i = Some (set_stock left b))
  ∧ (left = 0 →
     Analytics.get_out_of_stock_books db' !! i = Some (set_stock left b)
     ∧ index db' !! i = None).
Proof.
  intros Hrun Hplaced Hc Hb left.
  pose proof (checkout_books_effect _ _ _ _ _ _ _ _ i Hrun Hplaced Hc) as Hrow.
  rewrite Hb in Hrow. simpl in Hrow. fold left in Hrow.
  unfold Analytics.get_low_stock_alerts, Analytics.get_out_of_stock_books, index.
  split.
  - intros Hlow. split; apply map_lookup_filter_Some; (split; [done|]); simpl; lia.
  - intros Hzero. split.
    + apply map_lookup_filter_Some. split; [done|]. simpl. lia.
    + apply map_lookup_filter_None. right. intros b' Hb'. simpl.
      rewrite Hrow in Hb'. injection Hb' as <-. simpl. lia.
Qed.

Lemma unread_count_add type title msg db :
  get_unread_notifications_count (add_notification type title msg db)
  = S (get_unread_notifications_count db).
Proof.
  unfold get_unread_notifications_count, add_notification, with_notifications.
  cbn [notifications].
  rewrite map_filter_insert_True by done.
  apply map_size_insert_None, map_lookup_filter_None. left.
  apply next_rowid_fresh.
Qed.

(** X9: a placed order shows as exactly one more unread notification
    on the dashboard, and a checkout that places no order leaves the
    count as it was. *)
Theorem checkout_unread_count method form random_bytes db s r db' s' :
  checkout method form random_bytes db s = (r, db', s') →
  get_unread_notifications_count db'
  = (get_unread_notifications_count db + if placed r then 1 else 0)%nat.
Proof.
  intros Hrun. destruct (placed r) eqn:Hplaced.
  2: { rewrite (checkout_frame _ _ _ _ _ _ _ _ Hrun Hplaced). lia. }
  destruct method.
  { unfold checkout in Hrun.
    destruct (cart s) as [[|[? ?] ?]|];
      try destruct (checkout_display db _ [] rzero); by simplify_eq. }
  checkout_cases Hrun; try done.
  rewrite unread_count_add.
  apply checkout_write_spec in Hwrite as (_ & _ & _ & Hsame).
  unfold get_unread_notifications_count. rewrite Hsame. lia.
Qed.

Lemma checkout_check_in_stock db lines total items :
  Forall (line_in_stock db) lines →
  ∃ t its, checkout_check db lines total items = check_passed t its.
Proof.
  revert total items.
  induction lines as [|[k q] rest IH]; intros total items Hall; [by eexists _, _|].
  apply Forall_cons in Hall as [(b & Hb & Hq) Hall]. simpl in Hb, Hq.
  simpl. rewrite Hb. destruct (Z.leb_spec q (book_stock b)); [|lia].
  by apply IH.
Qed.

(** X10: an order identifier that is taken.  When every line of the
    cart is in stock and the identifier drawn belongs to an earlier
    order, the checkout ends with [IntegrityError]; nothing is written,
    and the cart is kept. *)
Theorem checkout_taken_identifier form random_bytes db s line rest :
  cart s = Some (line :: rest) →
  Forall (line_in_stock db) (line :: rest) →
  order_id_taken (new_order_id random_bytes) db = true →
  checkout POST form random_bytes db s = (unhandled IntegrityError, db, s).
Proof.
  intros Hcart Hall Htaken.
  destruct (checkout_check_in_stock db (line :: rest) rzero [] Hall)
    as (t & its & Hcheck).
  unfold checkout. rewrite Hcart, Hcheck.
  unfold checkout_place, checkout_write, insert_order.
  cbn [order_order_id]. by rewrite Htaken.
Qed.

(** X11: orders are only ever added.  Whatever the request, the orders
    and the order lines that were there before a checkout are there
    after it, unchanged and in their place; at most one order is new. *)
Theorem checkout_appends_orders method form random_bytes db s r db' s' :
  checkout method form random_bytes db s = (r, db', s') →
  orders db `prefix_of` orders db'
  ∧ order_items db `prefix_of` order_items db'
  ∧ (length (orders db') ≤ S (length (orders db)))%nat.
Proof.
  intros Hrun. destruct (placed r) eqn:Hplaced.
  2: { rewrite (checkout_frame _ _ _ _ _ _ _ _ Hrun Hplaced).
       split; [done|]. split; [done|lia]. }
  destruct method.
  { unfold checkout in Hrun.
    destruct (cart s) as [[|[? ?] ?]|];
      try destruct (checkout_display db _ [] rzero); by simplify_eq. }
  checkout_cases Hrun; try done.
  apply checkout_write_spec in Hwrite as (_ & (o & Ho & _) & Hitems & _).
  cbn [orders order_items add_notification with_notifications].
  rewrite Ho, Hitems, length_app. simpl.
  split; [by apply prefix_app_r|]. split; [by apply prefix_app_r|lia].
Qed.

(** X12: quantities are not checked for their sign.  [add_to_cart]
    takes a quantity below zero into an empty cart as it comes, and
    the checkout of that cart passes the stock check of any stock that
    is not negative: the order is placed and the stock of the book goes
    up. *)
Theorem negative_quantity_raises_stock form random_bytes db s book_id quantity i b :
  cart s = None → quantity < 0 →
  sql_rowid book_id = Some i → books db !! i = Some b → 0 ≤ book_stock b →
  order_id_taken (new_order_id random_bytes) db = false →
  let run := checkout POST form random_bytes db (add_to_cart book_id quantity s) in
  placed run.1.1 = true
  ∧ book_stock <$> books run.1.2 !! i = Some (book_stock b - quantity)
  ∧ book_stock b < book_stock b - quantity.
Proof.
  intros Hcart Hneg Hi Hb Hstock Hfree run.
  assert (fetch_book db book_id = Some b) as Hfetch.
  { unfold fetch_book. by rewrite Hi. }
  assert (placed run.1.1 = true) as Hplaced.
  { subst run. unfold checkout, add_to_cart. rewrite Hcart.
    cbn [cart set_cart add_flash default dict_get dict_set checkout_check].
    rewrite Hfetch. destruct (Z.leb_spec quantity (book_stock b)); [|lia].
    unfold checkout_place, checkout_write, insert_order.
    cbn [order_order_id]. by rewrite Hfree. }
  split; [done|]. split; [|lia].
  rewrite (checkout_books_effect form random_bytes db
             (add_to_cart book_id quantity s) [(book_id, quantity)]
             run.1.1 run.1.2 run.2 i).
  - rewrite Hb. simpl. unfold ordered_quantity. simpl.
    rewrite decide_True by done. f_equal. lia.
  - subst run. by destruct (checkout _ _ _ _ _) as [[? ?] ?].
  - done.
  - unfold add_to_cart. by rewrite Hcart.
Qed.

End CheckoutEffects.

(** ** The admin's book forms *)

Section BookForms.
Context {host : Host}.

Import App Admin.

(** What the checks of a book form establish. *)
Lemma validate_book_form_ok form v :
  validate_book_form form = inr v →
  string_in (py_lower (py_strip (form_price form))) price_sentinels = false
  ∧ py_float (py_strip (form_price form)) = Some (valid_price v)
  ∧ rlt0 (valid_price v) = false
  ∧ 0 ≤ valid_stock v ∧ 0 ≤ valid_threshold v.
Proof.
  unfold validate_book_form.
  destruct (string_in _ price_sentinels); [done|].
  destruct (py_float _) as [price|]; [|done].
  destruct (rlt0 price) eqn:Hneg; [done|].
  destruct (py_int (form_stock form)) as [stock|]; [|done].
  destruct (Z.ltb_spec stock 0); [done|].
  destruct (py_int _) as [threshold|]; [|done].
  destruct (Z.ltb_spec threshold 0); [done|].
  intros [= <-]. simpl. done.
Qed.

(** X13: [add_book] only ever adds.  Whatever the form, the books, the
    orders and the order lines that were there are there afterwards,
    unchanged; every answer other than the redirect to the book list
    leaves the whole database as it was; and a book that was added
    has a price that is not below zero and not NaN, and a stock and a
    threshold that are not below zero. *)
Theorem add_book_only_adds method form db s :
  let db' := (add_book method form db s).1.2 in
  (∀ i b, books db !! i = Some b → books db' !! i = Some b)
  ∧ orders db' = orders db ∧ order_items db' = order_items db
  ∧ ((add_book method form db s).1.1 ≠ redirect "admin.books" → db' = db)
  ∧ (∀ i b, books db' !! i = Some b → books db !! i = None → book_ok b)
  ∧ (size (books db') ≤ S (size (books db)))%nat.
Proof.
  intros db'. subst db'. unfold add_book.
  destruct method; [simpl; repeat split; try done; first [intros; congruence | lia]|].
  destruct (validate_book_form form) as [f|v] eqn:Hv;
    [simpl; repeat split; try done; first [intros; congruence | lia]|].
  apply validate_book_form_ok in Hv as (_ & _ & Hneg & Hstock & Hthr).
  unfold insert_book. cbn [book_price].
  destruct (risnan (valid_price v)) eqn:Hnan;
    [simpl; repeat split; try done; first [intros; congruence | lia]|].
  cbn [fst snd books orders order_items add_notification with_notifications
       with_books].
  pose proof (next_rowid_fresh (books_seq db) (books db)) as Hfresh.
  refine (conj _ (conj _ (conj _ (conj _ (conj _ _))))); try done.
  - intros i b Hb. rewrite lookup_insert_ne; [done|]. intros <-. congruence.
  - intros i b. rewrite lookup_insert. case_decide as Hi; [|congruence].
    intros [= <-] _. done.
  - rewrite map_size_insert_None by done. lia.
Qed.


(** X15: the alert of an edit that is refused.  [edit_book] records
    its low-stock alert before it updates the book.  When the price
    passes the checks as NaN, the update is refused with
    [IntegrityError] and the book stays as it was, and the alert for
    the stock that was not stored is there all the same. *)
Theorem edit_book_alert_without_update book_id form db s b v :
  books db !! book_id = Some b →
  validate_book_form form = inr v →
  risnan (valid_price v) = true →
  valid_stock v ≤ valid_threshold v < book_stock b →
  let run := edit_book POST book_id form db s in
  run.1.1 = unhandled IntegrityError
  ∧ books run.1.2 = books db
  ∧ notifications run.1.2 !! next_rowid (notifications_seq db) (notifications db)
    = Some {| notif_type := "low_stock"; notif_title := "Low Stock Alert";
              notif_message := msg_low_stock (form_title form) (valid_stock v);
              notif_is_read := false |}
  ∧ notifications db !! next_rowid (notifications_seq db) (notifications db) = None.
Proof.
  intros Hb Hv Hnan [Hlow Habove] run. subst run.
  unfold edit_book. rewrite Hb, Hv.
  destruct (Z.leb_spec (valid_stock v) (valid_threshold v)); [|lia].
  destruct (Z.ltb_spec (valid_threshold v) (book_stock b)); [|lia].
  unfold update_book. cbn [book_price andb]. rewrite Hnan.
  cbn [fst snd books notifications add_notification with_notifications].
  rewrite lookup_insert_eq.
  refine (conj _ (conj _ (conj _ _))); try done. apply next_rowid_fresh.
Qed.

(** X16: one alert per crossing.  After an edit that stored a stock,
    a further edit whose threshold is not below that stock records no
    low-stock alert, whatever stock it stores. *)
Theorem edit_book_alerts_once book_id form1 form2 db s1 s2 b v1 v2 :
  books db !! book_id = Some b →
  validate_book_form form1 = inr v1 → risnan (valid_price v1) = false →
  validate_book_form form2 = inr v2 →
  valid_stock v1 ≤ valid_threshold v2 →
  let db1 := (edit_book POST book_id form1 db s1).1.2 in
  let db2 := (edit_book POST book_id form2 db1 s2).1.2 in
  notifications_of_type "low_stock" db2 = notifications_of_type "low_stock" db1.
Proof.
  intros Hb Hv1 Hnan Hv2 Hbelow db1 db2.
  assert (∃ b1, books db1 !! book_id = Some b1 ∧ book_stock b1 = valid_stock v1)
    as (b1 & Hb1 & Hstock1).
  { subst db1. unfold edit_book. rewrite Hb, Hv1.
    unfold update_book. cbn [book_price]. rewrite Hnan.
    cbn [fst snd books with_books]. rewrite lookup_alter_eq.
    destruct (_ && _); cbn [books add_notification with_notifications];
      rewrite Hb; eexists; by split. }
  subst db2. rewrite (edit_book_low_stock_alert _ _ _ _ b1 v2 Hb1 Hv2).
  rewrite Hstock1.
  destruct (Z.ltb_spec (valid_threshold v2) (valid_stock v1)); [lia|].
  by rewrite andb_false_r.
Qed.

Lemma after_last_dot_no_dot ext :
  Forall (λ c, c ≠ "."%char) (list_ascii_of_string ext) →
  after_last_dot ext = None.
Proof.
  induction ext as [|c ext IH]; simpl; [done|].
  intros [Hc Hext]%Forall_cons. rewrite IH by done.
  by apply Ascii.eqb_neq in Hc as ->.
Qed.

(** X17: [allowed_file] reads the text after the last dot and nothing
    else.  A name is accepted exactly when that text, in lower case,
    is one of png, jpg, jpeg, gif and webp, whatever stands before the
    last dot, further dots and extensions included; a name without a
    dot is refused. *)
Theorem allowed_file_last_extension stem ext :
  Forall (λ c, c ≠ "."%char) (list_ascii_of_string ext) →
  allowed_file (stem +:+ "." +:+ ext) = string_in (py_lower ext) ALLOWED_EXTENSIONS
  ∧ allowed_file ext = false.
Proof.
  intros Hext. pose proof (after_last_dot_no_dot ext Hext) as Hnone.
  unfold allowed_file. rewrite Hnone. split; [|done].
  assert (after_last_dot (stem +:+ "." +:+ ext) = Some ext) as ->; [|done].
  induction stem as [|c stem IH]; simpl.
  - change ("" +:+ ext) with ext. by rewrite Hnone.
  - by rewrite IH.
Qed.

End BookForms.

(** ** Notifications and the dashboard *)

Section Dashboard.
Context {host : Host}.

Lemma size_filter_insert {A} (P : Z * A → Prop) `{!∀ x, Decision (P x)}
    (m : gmap Z A) (i : Z) (x : A) :
  m !! i = None →
  size (filter P (<[i := x]> m))
  = ((if decide (P (i, x)) then 1 else 0) + size (filter P m))%nat.
Proof.
  intros Hi. rewrite map_filter_insert. case_decide.
  - rewrite map_size_insert_None; [done|].
    apply map_lookup_filter_None. by left.
  - by rewrite delete_id.
Qed.

Lemma unread_count_mark_unread i n db :
  notifications db !! i = Some n → notif_is_read n = false →
  S (get_unread_notifications_count (Database.mark_notification_read i db))
  = get_unread_notifications_count db.
Proof.
  intros Hn Hunread.
  unfold get_unread_notifications_count, Database.mark_notification_read.
  cbn [notifications with_notifications].
  rewrite <- (insert_delete_id (notifications db) i n Hn) at 2.
  rewrite <- (insert_delete_id (notifications db) i n Hn) at 1.
  rewrite alter_insert_eq.
  rewrite !size_filter_insert by apply lookup_delete_eq.
  rewrite decide_False by (simpl; done).
  rewrite decide_True by (simpl; done). done.
Qed.

(** X18: marking an unread notification read lowers the unread count
    of the dashboard by exactly one and touches no other row. *)
Theorem mark_read_lowers_unread_count i n db :
  notifications db !! i = Some n → notif_is_read n = false →
  S (get_unread_notifications_count (Admin.mark_notification_read i db).2)
  = get_unread_notifications_count db
  ∧ notifications (Admin.mark_notification_read i db).2 !! i = Some (set_read n)
  ∧ ∀ j, j ≠ i →
      notifications (Admin.mark_notification_read i db).2 !! j
      = notifications db !! j.
Proof.
  intros Hn Hunread. unfold Admin.mark_notification_read. cbn [snd].
  split; [by apply (unread_count_mark_unread i n)|].
  cbn [notifications Database.mark_notification_read with_notifications].
  split.
  - by rewrite lookup_alter_eq, Hn.
  - intros j Hj. by rewrite lookup_alter_ne.
Qed.

(** X19: a notification added and then marked read.  The new row gets
    a key that no row has, it starts unread and raises the unread count
    by one, and marking that key read brings the count back to what it
    was, with every earlier row as it was. *)
Theorem add_then_mark_read type title msg db :
  let i := next_rowid (notifications_seq db) (notifications db) in
  let db1 := add_notification type title msg db in
  let db2 := Database.mark_notification_read i db1 in
  notifications db !! i = None
  ∧ get_unread_notifications_count db1 = S (get_unread_notifications_count db)
  ∧ get_unread_notifications_count db2 = get_unread_notifications_count db
  ∧ (notif_is_read <$> notifications db2 !! i) = Some true
  ∧ ∀ j n, notifications db !! j = Some n → notifications db2 !! j = Some n.
Proof.
  intros i db1 db2.
  pose proof (next_rowid_fresh (notifications_seq db) (notifications db)) as Hfresh.
  fold i in Hfresh.
  assert (notifications db1 !! i
          = Some {| notif_type := type; notif_title := title;
                    notif_message := msg; notif_is_read := false |}) as Hnew.
  { subst db1 i. cbn [notifications add_notification with_notifications].
    apply lookup_insert_eq. }
  split; [done|]. split; [apply unread_count_add|]. split.
  { pose proof (unread_count_mark_unread i _ db1 Hnew eq_refl) as Hcount.
    fold db2 in Hcount. subst db1. rewrite unread_count_add in Hcount. lia. }
  split.
  { subst db2. cbn [notifications Database.mark_notification_read with_notifications].
    by rewrite lookup_alter_eq, Hnew. }
  intros j n Hj. assert (j ≠ i) by congruence.
  subst db2. cbn [notifications Database.mark_notification_read with_notifications].
  rewrite lookup_alter_ne by done. subst db1. by apply add_notification_keeps.
Qed.


(** X21: which books the lists show.  A book is on the storefront's
    list or among the out-of-stock books, never both, and the
    low-stock alerts are on the storefront's list; every book is on
    one of the two exactly when no stock is below zero, so that a book
    with a stock below zero is on none of the three. *)
Theorem lists_cover_nonnegative_stock db :
  (∀ i b, Analytics.get_low_stock_alerts db !! i = Some b
          → AppEnhanced.index db !! i = Some b)
  ∧ (∀ i, AppEnhanced.index db !! i = None
          ∨ Analytics.get_out_of_stock_books db !! i = None)
  ∧ (stocks_nonneg db ↔
     ∀ i b, books db !! i = Some b →
       AppEnhanced.index db !! i = Some b
       ∨ Analytics.get_out_of_stock_books db !! i = Some b)
  ∧ (∀ i b, books db !! i = Some b → book_stock b < 0 →
       AppEnhanced.index db !! i = None
       ∧ Analytics.get_out_of_stock_books db !! i = None
       ∧ Analytics.get_low_stock_alerts db !! i = None).
Proof.
  unfold Analytics.get_low_stock_alerts, Analytics.get_out_of_stock_books,
    AppEnhanced.index, stocks_nonneg.
  split; [|split; [|split]].
  - intros i b [Hb [_ Hpos]]%map_lookup_filter_Some.
    by apply map_lookup_filter_Some.
  - intros i. destruct (books db !! i) as [b|] eqn:Hb.
    + destruct (decide (0 < book_stock b)).
      * right. apply map_lookup_filter_None. right. intros b' Hb'. simpl.
        simplify_eq. lia.
      * left. apply map_lookup_filter_None. right. intros b' Hb'. simpl.
        by simplify_eq.
    + left. apply map_lookup_filter_None. by left.
  - split.
    + intros Hnonneg i b Hb. specialize (Hnonneg i b Hb). simpl in Hnonneg.
      destruct (decide (0 < book_stock b)).
      * left. by apply map_lookup_filter_Some.
      * right. apply map_lookup_filter_Some. split; [done|]. simpl. lia.
    + intros Hcover i b Hb. simpl.
      destruct (Hcover i b Hb) as [[_ H]%map_lookup_filter_Some
                                  |[_ H]%map_lookup_filter_Some];
        simpl in H; lia.
  - intros i b Hb Hneg.
    repeat split; apply map_lookup_filter_None; right; intros b' Hb'; simpl;
      simplify_eq; lia.
Qed.

End Dashboard.

(** ** The further properties at work on the sample store *)

Section MoreSamples.
Import Double Examples.


(** Three copies in the cart, then the quantity set to zero. *)
Lemma update_cart_lookup_witness :
  dict_get "1" (default [] (cart (AppEnhanced.update_cart "1" 0
                                    (basket [("1"%string, 3); ("7"%string, 1)]))))
  = None
  ∧ dict_get "7" (default [] (cart (AppEnhanced.update_cart "1" 0
                                      (basket [("1"%string, 3); ("7"%string, 1)]))))
    = Some 1.
Proof.
  assert (is_dict [("1"%string, 3); ("7"%string, 1)]) as Hdict.
  { unfold is_dict. cbn [fmap list_fmap fst].
    apply NoDup_cons. split; [by rewrite list_elem_of_singleton|apply NoDup_singleton]. }
  split.
  - exact (update_cart_lookup "1" 0 (basket [("1"%string, 3); ("7"%string, 1)])
             _ "1" eq_refl Hdict).
  - exact (update_cart_lookup "1" 0 (basket [("1"%string, 3); ("7"%string, 1)])
             _ "7" eq_refl Hdict).
Defined.

Lemma remove_from_cart_lookup_witness :
  AppEnhanced.api_cart_count
    (AppEnhanced.remove_from_cart "1" (basket [("1"%string, 3); ("7"%string, 1)]))
  = 4 - 3.
Proof.
  assert (is_dict [("1"%string, 3); ("7"%string, 1)]) as Hdict.
  { unfold is_dict. cbn [fmap list_fmap fst].
    apply NoDup_cons. split; [by rewrite list_elem_of_singleton|apply NoDup_singleton]. }
  exact (proj2 (proj2 (remove_from_cart_lookup "1"
                         (basket [("1"%string, 3); ("7"%string, 1)]) _
                         eq_refl Hdict))).
Defined.

(** Eight copies of The Great Gatsby asked for, six in stock. *)
Lemma view_cart_page_adds_up_witness :
  let page := (AppEnhanced.view_cart (store 6 1)
                 (basket [("1"%string, 8); ("7"%string, 1)])).1 in
  ∃ cart_items total,
    page = render_cart cart_items total
    ∧ line_quantity <$> cart_items = [6; 1]
    ∧ total = sum_of_lines rzero cart_items.
Proof.
  intros page. eexists _, _. split; [reflexivity|]. split; [reflexivity|].
  exact (proj1 (view_cart_page_adds_up (store 6 1)
                  (basket [("1"%string, 8); ("7"%string, 1)]) _ _ eq_refl)).
Defined.

Lemma sample_cart_is_dict : is_dict [("1"%string, 8); ("7"%string, 1)].
Proof.
  unfold is_dict. cbn [fmap list_fmap fst].
  apply NoDup_cons. split; [by rewrite list_elem_of_singleton|apply NoDup_singleton].
Qed.



Lemma view_cart_again_is_quiet_witness :
  let s := basket [("1"%string, 8); ("7"%string, 1)] in
  let first := AppEnhanced.view_cart (store 6 1) s in
  cart first.2 = Some [("1"%string, 6); ("7"%string, 1)]
  ∧ AppEnhanced.view_cart (store 6 1) first.2 = first.
Proof.
  intros s first. split; [reflexivity|].
  exact (view_cart_again_is_quiet (store 6 1) s _ _ _ first.2
           eq_refl sample_cart_is_dict eq_refl).
Defined.

(** Ann's order for two copies of The Great Gatsby. *)
Lemma checkout_takes_exactly_the_order_witness :
  let run := AppEnhanced.checkout POST (customer "Ann") draw_a (store 6 1)
               (basket [("1"%string, 2)]) in
  (∃ b', books run.1.2 !! 1 = Some b' ∧ book_stock b' = 6 - 2
         ∧ book_price b' = 12.99%float)
  ∧ (∃ b', books run.1.2 !! 7 = Some b' ∧ book_stock b' = 1 - 0).
Proof.
  intros run.
  pose proof (checkout_takes_exactly_the_order (customer "Ann") draw_a (store 6 1)
                (basket [("1"%string, 2)]) [("1"%string, 2)]
                run.1.1 run.1.2 run.2 eq_refl eq_refl eq_refl) as Heffect.
  split.
  - destruct (proj2 (Heffect 1) (gatsby 6) eq_refl)
      as (b' & Hb' & Hstock & _ & Hprice & _).
    exists b'. done.
  - destruct (proj2 (Heffect 7) (history_book 1) eq_refl) as (b' & Hb' & Hstock & _).
    exists b'. done.
Defined.

Lemma sale_shows_on_the_inventory_page_witness :
  let run := AppEnhanced.checkout POST (customer "Ann") draw_a (store 6 1)
               (basket [("1"%string, 2); ("7"%string, 1)]) in
  Analytics.get_low_stock_alerts run.1.2 !! 1 = Some (gatsby 4)
  ∧ Analytics.get_out_of_stock_books run.1.2 !! 7 = Some (history_book 0)
  ∧ AppEnhanced.index run.1.2 !! 7 = None.
Proof.
  intros run.
  pose proof (sale_shows_on_the_inventory_page (customer "Ann") draw_a (store 6 1)
                (basket [("1"%string, 2); ("7"%string, 1)])
                [("1"%string, 2); ("7"%string, 1)] run.1.1 run.1.2 run.2)
    as Hshows.
  split.
  - apply (proj1 (Hshows 1 (gatsby 6) eq_refl eq_refl eq_refl eq_refl)).
    unfold ordered_quantity. simpl. lia.
  - apply (proj2 (Hshows 7 (history_book 1) eq_refl eq_refl eq_refl eq_refl)).
    reflexivity.
Defined.

Lemma checkout_unread_count_witness :
  let run := AppEnhanced.checkout POST (customer "Ann") draw_a (store 6 1)
               (basket [("1"%string, 2)]) in
  get_unread_notifications_count run.1.2 = 1%nat.
Proof.
  intros run.
  exact (checkout_unread_count POST (customer "Ann") draw_a (store 6 1)
           (basket [("1"%string, 2)]) run.1.1 run.1.2 run.2 eq_refl).
Defined.

(** Bob draws the identifier of Ann's order. *)
Lemma checkout_taken_identifier_witness :
  let after_ann := (AppEnhanced.checkout POST (customer "Ann") draw_a (store 6 1)
                      (basket [("1"%string, 2)])).1.2 in
  AppEnhanced.checkout POST (customer "Bob") draw_a after_ann (basket [("1"%string, 1)])
  = (unhandled IntegrityError, after_ann, basket [("1"%string, 1)]).
Proof.
  intros after_ann.
  apply (checkout_taken_identifier (customer "Bob") draw_a after_ann
           (basket [("1"%string, 1)]) ("1"%string, 1) []).
  - reflexivity.
  - constructor; [|constructor]. exists (gatsby 4). split; [reflexivity|]. simpl. lia.
  - reflexivity.
Defined.

Lemma checkout_appends_orders_witness :
  let after_ann := (AppEnhanced.checkout POST (customer "Ann") draw_a (store 6 1)
                      (basket [("1"%string, 2)])).1.2 in
  let after_bob := (AppEnhanced.checkout POST (customer "Bob") draw_b after_ann
                      (basket [("7"%string, 1)])).1.2 in
  length (orders after_bob) = 2%nat
  ∧ orders after_ann `prefix_of` orders after_bob
  ∧ order_items after_ann `prefix_of` order_items after_bob.
Proof.
  intros after_ann after_bob. split; [reflexivity|].
  destruct (checkout_appends_orders POST (customer "Bob") draw_b after_ann
              (basket [("7"%string, 1)]) _ after_bob _ eq_refl) as (Ho & Hi & _).
  done.
Defined.

Lemma negative_quantity_raises_stock_witness :
  let run := AppEnhanced.checkout POST (customer "Ann") draw_a (store 6 1)
               (AppEnhanced.add_to_cart "1" (-2) {| cart := None; flashes := [] |}) in
  placed run.1.1 = true
  ∧ book_stock <$> books run.1.2 !! 1 = Some (6 - -2)
  ∧ 6 < 6 - -2.
Proof.
  apply (negative_quantity_raises_stock (customer "Ann") draw_a (store 6 1)
           {| cart := None; flashes := [] |} "1" (-2) 1 (gatsby 6));
    first [reflexivity | simpl; lia].
Defined.


(** The Great Gatsby, six in stock, edited to three copies at a price
    of ["+nan"]. *)
Lemma edit_book_alert_without_update_witness :
  let run := Admin.edit_book POST 1 (new_book "+nan") (store 6 1) (basket []) in
  run.1.1 = unhandled IntegrityError
  ∧ books run.1.2 = books (store 6 1)
  ∧ notif_message <$> notifications run.1.2 !! 1 = Some (msg_low_stock "Dune" 3).
Proof.
  intros run.
  destruct (edit_book_alert_without_update 1 (new_book "+nan") (store 6 1) (basket [])
              (gatsby 6)
              (@Admin.Build_valid_fields Double.host nan 3 5)
              eq_refl eq_refl eq_refl ltac:(simpl; lia))
    as (Hr & Hbooks & Hrow & _).
  split; [exact Hr|]. split; [exact Hbooks|].
  change (next_rowid (notifications_seq (store 6 1)) (notifications (store 6 1)))
    with 1 in Hrow.
  fold run in Hrow. by rewrite Hrow.
Defined.

Lemma edit_book_alerts_once_witness :
  let db1 := (Admin.edit_book POST 1 (new_book "9.5") (store 6 1) (basket [])).1.2 in
  let db2 := (Admin.edit_book POST 1 (new_book "9.5") db1 (basket [])).1.2 in
  size (notifications_of_type "low_stock" db1) = 1%nat
  ∧ notifications_of_type "low_stock" db2 = notifications_of_type "low_stock" db1.
Proof.
  intros db1 db2. split; [reflexivity|].
  exact (edit_book_alerts_once 1 (new_book "9.5") (new_book "9.5") (store 6 1)
           (basket []) (basket []) (gatsby 6)
           (@Admin.Build_valid_fields Double.host 9.5%float 3 5)
           (@Admin.Build_valid_fields Double.host 9.5%float 3 5)
           eq_refl eq_refl eq_refl eq_refl ltac:(simpl; lia)).
Defined.

(** A name with two extensions, the last in upper case. *)
Lemma allowed_file_last_extension_witness :
  Admin.allowed_file "shell.php.PNG" = true ∧ Admin.allowed_file "PNG" = false.
Proof.
  exact (allowed_file_last_extension "shell.php" "PNG"
           ltac:(repeat constructor; done)).
Defined.

Lemma mark_read_lowers_unread_count_witness :
  get_unread_notifications_count (inbox false) = 1%nat
  ∧ S (get_unread_notifications_count (Admin.mark_notification_read 1 (inbox false)).2)
    = get_unread_notifications_count (inbox false).
Proof.
  split; [reflexivity|].
  exact (proj1 (mark_read_lowers_unread_count 1 (alert false) (inbox false)
                  eq_refl eq_refl)).
Defined.


End MoreSamples.
